(** * FolderManager: configuration bootstrap and folder-name sanitisation

    A shallow embedding of the two implementations of the FolderManager
    command-line tool, [main.c] and [main.cpp], and the properties of the
    name sanitiser, of the confirmation loop, of the configuration
    resolver and of the final hand-off to the file browser.

    Conventions of the embedding.
    - A [char] is an [ascii]; a C string or a [std::string] is a
      [list ascii].  A [char*] argument is the list of bytes stored from
      the pointer on; the byte after the last one reads as the terminator,
      so the string a C function sees is [c_str] of the list.
    - The [<ctype.h>] functions are those of the "C" locale (neither
      program calls [setlocale]) applied to the byte value of the
      character: bytes above 127 are neither control nor white space.
    - Terminal and file input and output are threaded through an explicit
      [world]; everything printed or read is appended to a trace.
    - [while (1)] loops take a fuel argument; a run that uses it up ends
      with the result [Fuel]. *)

From Stdlib Require Import Ascii String ZArith List Lia.
From stdpp Require Import base option list gmap strings.

Local Open Scope char_scope.
Local Open Scope Z_scope.

(** ** Characters and [<ctype.h>] *)

Definition NUL : ascii := "000".
Definition LF : ascii := "010".
Definition CR : ascii := "013".
Definition TAB : ascii := "009".
Definition DQUOTE : ascii := "034".

(** A literal of the source, as a list of characters. *)
Definition lit (s : string) : list ascii := list_ascii_of_string s.

(** The value of a character when it is passed as an [int]. *)
Definition ord (c : ascii) : Z := Z.of_N (N_of_ascii c).

Definition chr (z : Z) : ascii := ascii_of_N (Z.to_N z).

Definition iscntrl (c : ascii) : bool :=
  (ord c <? 32) || (ord c =? 127).

Definition isspace (c : ascii) : bool :=
  (ord c =? 32) || ((9 <=? ord c) && (ord c <=? 13)).

Definition tolower (c : ascii) : ascii :=
  if (ord "A" <=? ord c) && (ord c <=? ord "Z") then chr (ord c + 32) else c.

(** ** [<string.h>] on lists of characters *)

(** The string a [char*] denotes: the bytes before the first terminator. *)
Fixpoint c_str (buf : list ascii) : list ascii :=
  match buf with
  | [] => []
  | c :: buf' => if Ascii.eqb c NUL then [] else c :: c_str buf'
  end.

(** [p[i]] for a [char*] [p]: past the stored bytes sits the terminator. *)
Definition char_at (p : list ascii) (i : nat) : ascii := default NUL (p !! i).

(** [strchr(s, c) != NULL]: the terminator is part of the string searched. *)
Definition strchr (s : list ascii) (c : ascii) : bool :=
  existsb (Ascii.eqb c) (c_str s) || Ascii.eqb c NUL.

(** [strcspn(s, reject)]: length of the prefix of [s] free of [reject]. *)
Fixpoint strcspn (s reject : list ascii) : nat :=
  match s with
  | [] => 0%nat
  | c :: s' =>
      if Ascii.eqb c NUL || existsb (Ascii.eqb c) reject then 0%nat
      else S (strcspn s' reject)
  end.

(** [std::string::find(ch)]: [None] stands for [npos]. *)
Fixpoint find (s : list ascii) (ch : ascii) : option nat :=
  match s with
  | [] => None
  | c :: s' => if Ascii.eqb c ch then Some 0%nat else S <$> find s' ch
  end.

(** The reserved characters: the literal [invalid] of both files, with the
    double quote written by its code. *)
Definition invalid : list ascii :=
  ["<"; ">"; ":"; DQUOTE; "/"; "\"; "|"; "?"; "*"].

(** ** The world the programs run in *)

(** What a run writes and reads, in program order. *)
Inductive event : Type :=
  | Out (s : list ascii)   (* one [printf] or one [std::cout] statement *)
  | Err (s : list ascii)   (* one write to standard error *)
  | In (s : list ascii).   (* the characters one read took from standard input *)

(** The answers of the operating system and of the C++ library that the
    programs cannot compute themselves, each as a function of the path it
    is asked about.  [windows.h], [shlobj.h] and [<filesystem>] are not part
    of the repository. *)
Record platform : Type := Platform {
  GetFileAttributes : list ascii → Z;
  mkdir_status : list ascii → Z;            (* [_mkdir(path)] *)
  chdir_status : list ascii → Z;            (* [_chdir(path)] *)
  ShellExecute_status : list ascii → Z;     (* [ShellExecute(.., "explorer.exe", path, ..)] *)
  Downloads : Z * list ascii;               (* [SHGetKnownFolderPath]: HRESULT and path *)
  fopen_w_ok : list ascii → bool;           (* can the file be opened for writing *)
  path_append : list ascii → list ascii → list ascii;  (* [fs::path::operator/] *)
  fs_exists : list ascii → bool;            (* [fs::exists] on a directory path *)
  create_directories : list ascii → option bool; (* [None]: throws *)
  create_directory : list ascii → option bool    (* [None]: throws *)
}.

Record world : Type := World {
  USERPROFILE : option (list ascii);        (* the environment variable *)
  stdin : list ascii;                       (* the characters not yet read *)
  cin_good : bool;                          (* [std::cin.good()] *)
  files : gmap (list ascii) (list ascii);   (* regular files, by path *)
  trace : list event
}.

Definition log (e : event) (w : world) : world :=
  World (USERPROFILE w) (stdin w) (cin_good w) (files w) (trace w ++ [e]).

Definition set_stdin (s : list ascii) (good : bool) (w : world) : world :=
  World (USERPROFILE w) s good (files w) (trace w).

Definition set_file (path content : list ascii) (w : world) : world :=
  World (USERPROFILE w) (stdin w) (cin_good w) (<[path := content]> (files w))
        (trace w).

(** How a computation ends: with a value, by [exit(status)], by an
    exception nobody catches, or cut short because a loop ran out of fuel. *)
Inductive result (A : Type) : Type :=
  | Val (a : A)
  | Exit (status : Z)
  | Uncaught
  | Fuel.
Arguments Val {A} a.
Arguments Exit {A} status.
Arguments Uncaught {A}.
Arguments Fuel {A}.

(** A computation in the world: how it ends, and the world it leaves. *)
Definition IO (A : Type) : Type := world → result A * world.

Definition ret {A} (a : A) : IO A := λ w, (Val a, w).

Definition bind {A B} (m : IO A) (k : A → IO B) : IO B :=
  λ w, match m w with
       | (Val a, w') => k a w'
       | (Exit st, w') => (Exit st, w')
       | (Uncaught, w') => (Uncaught, w')
       | (Fuel, w') => (Fuel, w')
       end.

#[global] Instance IO_ret : MRet IO := @ret.
#[global] Instance IO_bind : MBind IO := λ A B k m, bind m k.

Definition out_of_fuel {A} : IO A := λ w, (Fuel, w).
Definition exit {A} (status : Z) : IO A := λ w, (Exit status, w).
Definition throw {A} : IO A := λ w, (Uncaught, w).
Definition get {A} (f : world → A) : IO A := λ w, (Val (f w), w).
Definition emit (e : event) : IO unit := λ w, (Val tt, log e w).

(** A call to the platform, given its answer. *)
Definition call {A} (answer : A) : IO A := ret answer.

Definition EXIT_SUCCESS : Z := 0.
Definition EXIT_FAILURE : Z := 1.

(** ** [<stdio.h>] *)

Definition printf (s : list ascii) : IO unit := emit (Out s).
Definition fprintf_stderr (s : list ascii) : IO unit := emit (Err s).
Definition getenv_USERPROFILE : IO (option (list ascii)) := get USERPROFILE.

(** [perror(s)]: [s] and a colon; the system's text for [errno] follows
    and is not modelled. *)
Definition perror (s : list ascii) : IO unit := emit (Err (s ++ lit ": ")).

(** [SUCCEEDED(hr)] of [winerror.h]. *)
Definition SUCCEEDED (hr : Z) : bool := 0 <=? hr.

(** The characters one [fgets] call takes from a stream when its buffer
    has room for [k] of them: through the first new-line, at most [k]. *)
Fixpoint fgets_chars (k : nat) (stream : list ascii) : list ascii * list ascii :=
  match k, stream with
  | S k', c :: rest =>
      if Ascii.eqb c LF then ([c], rest)
      else let '(l, rest') := fgets_chars k' rest in (c :: l, rest')
  | _, _ => ([], stream)
  end.

(** [fgets(buf, n, stdin)]: [Some] of the bytes stored in [buf] before the
    terminator, [None] for a null result, which leaves [buf] as it was.
    This is [fgets] for [n] of 2 or more, as the sources call it (10, 256
    and 1024); with room for the terminator alone the function of the
    library returns the empty string, which is not modelled. *)
Definition fgets_stdin (n : nat) : IO (option (list ascii)) :=
  λ w, let '(l, rest) := fgets_chars (n - 1) (stdin w) in
       match l with
       | [] => (Val None, log (In []) w)
       | _ => (Val (Some l), log (In l) (set_stdin rest (cin_good w) w))
       end.

(** [fgets(buf, n, file)] on a file just opened with this [content], for
    [n] of 2 or more as above. *)
Definition fgets_file (n : nat) (content : list ascii) : option (list ascii) :=
  match fst (fgets_chars (n - 1) content) with
  | [] => None
  | l => Some l
  end.

(** [fopen(path, "r")]: the stream, or [None] for a null result. *)
Definition fopen_r (path : list ascii) : IO (option (list ascii)) :=
  get (λ w, files w !! c_str path).

(** The file at [path], opened for writing, is given [text] and closed. *)
Definition fprintf_file (path text : list ascii) : IO unit :=
  λ w, (Val tt, set_file path text w).

(** [snprintf(buf, size, ..)], given the formatted text, for a [size] of
    1 or more; with [size] 0 the function of the library stores nothing. *)
Definition snprintf (size : nat) (text : list ascii) : list ascii :=
  take (size - 1) text.

Definition strlen (s : list ascii) : nat := length (c_str s).

(** [strncat(dest, src, n)]. *)
Definition strncat (dest src : list ascii) (n : nat) : list ascii :=
  c_str dest ++ take n (c_str src).

(** [strncpy(dest, src, n); dest[n] = 0] with [n] below the size of [dest]. *)
Definition strncpy (src : list ascii) (n : nat) : list ascii :=
  take n (c_str src).

(** [s[k] = 0]: the string now ends before index [k]. *)
Definition cut_at (k : nat) (s : list ascii) : list ascii := take k s.

(** ** [std::getline] *)

(** The characters before the first new-line, and what follows it
    ([None] when the stream ends first). *)
Fixpoint split_line (stream : list ascii) : list ascii * option (list ascii) :=
  match stream with
  | [] => ([], None)
  | c :: rest =>
      if Ascii.eqb c LF then ([], Some rest)
      else let '(l, r) := split_line rest in (c :: l, r)
  end.

(** [std::getline(std::cin, str)]: the contents of [str] afterwards.  A
    stream that is not good is not read and [str] is left alone; reaching
    the end of the input leaves the stream not good. *)
Definition getline_cin (str : list ascii) : IO (list ascii) :=
  λ w, if cin_good w then
         match split_line (stdin w) with
         | (l, Some rest) => (Val l, log (In (l ++ [LF])) (set_stdin rest true w))
         | (l, None) => (Val l, log (In l) (set_stdin [] false w))
         end
       else (Val str, w).

(** [std::getline(in, str)] on an [ifstream] just opened on [content]. *)
Definition getline_file (content : list ascii) : list ascii :=
  fst (split_line content).

(** ** main.c *)

Module C.

Definition MAX_PATH_LEN : nat := 1024.
Definition MAX_NAME_LEN : nat := 256.

Section Program.
Variable sys : platform.

(** [get_config_path(configPath, size)]: [Some] of [configPath] when the
    function returns 1, [None] when it returns 0. *)
Definition get_config_path (size : nat) : IO (option (list ascii)) :=
  home ← getenv_USERPROFILE;
  match home with
  | None =>
      fprintf_stderr (lit "Error: Could not determine user profile directory."
                      ++ [LF]);;
      ret None
  | Some home =>
      let configPath := snprintf size (c_str home ++ lit "\AppData\Local\FolderManager") in
      call (mkdir_status sys configPath);;
      ret (Some (strncat configPath (lit "\config.txt") (size - strlen configPath - 1)))
  end.

(** [read_or_create_config(basePath, size)]: [Some] of [basePath] when the
    function returns 1, [None] when it returns 0.  [response] is the
    indeterminate content of the local array on entry. *)
Definition read_or_create_config (response : list ascii) (size : nat)
    : IO (option (list ascii)) :=
  cp ← get_config_path MAX_PATH_LEN;
  match cp with
  | None => ret None
  | Some configPath =>
      file ← fopen_r configPath;
      match file with
      | Some content =>
          match fgets_file size content with
          | None => ret None
          | Some basePath => ret (Some (cut_at (strcspn basePath [CR; LF]) basePath))
          end
      | None =>
          home ← getenv_USERPROFILE;
          let basePath := snprintf size (c_str (default (lit "(null)") home) ++ lit "\Projects") in
          printf (lit "Config file not found." ++ [LF]);;
          printf (lit "Suggested default base directory: " ++ c_str basePath ++ [LF]);;
          printf (lit "Use this as your base directory? (y/n): ");;
          r ← fgets_stdin 10;
          let response := default response r in
          basePath ←
            (if negb (Ascii.eqb (tolower (char_at response 0)) "y") then
               printf (lit "Enter your preferred base directory: ");;
               r ← fgets_stdin size;
               let basePath := default basePath r in
               ret (cut_at (strcspn basePath [CR; LF]) basePath)
             else ret basePath);
          ok ← call (fopen_w_ok sys (c_str configPath));
          if negb ok then
            fprintf_stderr (lit "Error: Could not write config file." ++ [LF]);;
            ret None
          else
            fprintf_file (c_str configPath) (c_str basePath ++ [LF]);;
            printf (lit "Saved base directory to config file." ++ [LF]);;
            ret (Some basePath)
      end
  end.

(** The [for] loop of [sanitize_folder_name], one iteration per unit of
    fuel; the state is [i], [j] and the [output] array, written by index. *)
Fixpoint sanitize_loop (fuel : nat) (input : list ascii) (i j : nat)
    (output : list ascii) : option (nat * list ascii) :=
  match fuel with
  | O => None
  | S fuel' =>
      if negb (Ascii.eqb (char_at input i) NUL) && (j <? MAX_NAME_LEN - 1)%nat then
        if strchr invalid (char_at input i) || iscntrl (char_at input i) then
          sanitize_loop fuel' input (S i) j output
        else if isspace (char_at input i) then
          sanitize_loop fuel' input (S i) (S j) (<[j := "_"]> output)
        else
          sanitize_loop fuel' input (S i) (S j) (<[j := char_at input i]> output)
      else Some (j, output)
  end.

(** [sanitize_folder_name(input, output)]: the contents of [output] after
    the call.  The loop is given one unit of fuel per stored byte of
    [input] and one for the test that leaves it. *)
Definition sanitize_folder_name (input output : list ascii) : option (list ascii) :=
  '(j, output') ← sanitize_loop (S (length input)) input 0 0 output;
  Some (<[j := NUL]> output').

(** [prompt_user_for_folder_name(finalName)]: the contents of [finalName]
    on return.  [tempName] and [response] are the contents of the two local
    arrays, indeterminate on entry and kept from one iteration to the next. *)
Fixpoint prompt_user_for_folder_name (fuel : nat)
    (tempName response finalName : list ascii) : IO (list ascii) :=
  match fuel with
  | O => out_of_fuel
  | S fuel' =>
      match sanitize_folder_name finalName tempName with
      | None => out_of_fuel
      | Some tempName =>
          printf (lit "Sanitized folder name: " ++ [DQUOTE] ++ c_str tempName
                  ++ [DQUOTE; LF]);;
          printf (lit "Do you want to use this name? (y/n): ");;
          r ← fgets_stdin 10;
          let response := default response r in
          if Ascii.eqb (tolower (char_at response 0)) "y" then
            ret (c_str tempName)                    (* strcpy; break *)
          else
            printf (lit "Enter a new folder name: ");;
            r ← fgets_stdin MAX_NAME_LEN;
            let finalName := default finalName r in
            let finalName := cut_at (strcspn finalName [CR; LF]) finalName in
            prompt_user_for_folder_name fuel' tempName response finalName
      end
  end.

Definition INVALID_FILE_ATTRIBUTES : Z := 0xFFFFFFFF.
Definition FILE_ATTRIBUTE_DIRECTORY : Z := 0x10.

Definition directory_exists (path : list ascii) : IO bool :=
  attribs ← call (GetFileAttributes sys (c_str path));
  ret (negb (attribs =? INVALID_FILE_ATTRIBUTES)
       && negb (Z.land attribs FILE_ATTRIBUTE_DIRECTORY =? 0)).

Definition open_in_file_explorer (path : list ascii) : IO unit :=
  call (ShellExecute_status sys (c_str path));;
  ret tt.

Definition open_downloads_folder : IO unit :=
  '(hr, downloadsPath) ← call (Downloads sys);
  if SUCCEEDED hr then
    call (ShellExecute_status sys downloadsPath);;
    ret tt
  else
    fprintf_stderr (lit "Error: Could not locate Downloads folder" ++ [LF]).

(** Steps 5 and 6 of [main]. *)
Definition enter_and_open (fullPath : list ascii) : IO Z :=
  st ← call (chdir_status sys (c_str fullPath));
  if negb (st =? 0) then
    perror (lit "Error changing directory");;
    ret EXIT_FAILURE
  else
    open_in_file_explorer fullPath;;
    open_downloads_folder;;
    ret EXIT_SUCCESS.

(** [main(argc, argv)] with [argc = length argv]; [tempName], [response]
    and [response'] are the indeterminate contents of the local arrays of
    [prompt_user_for_folder_name] and of [read_or_create_config]. *)
Definition main (fuel : nat) (tempName response response' : list ascii)
    (argv : list (list ascii)) : IO Z :=
  if negb (length argv =? 2)%nat then
    fprintf_stderr (lit "Usage: " ++ c_str (default [] (argv !! 0%nat))
                    ++ lit " <folder_name>" ++ [LF]);;
    ret EXIT_FAILURE
  else
    let folderName := strncpy (default [] (argv !! 1%nat)) (MAX_NAME_LEN - 1) in
    folderName ← prompt_user_for_folder_name fuel tempName response folderName;
    r ← read_or_create_config response' MAX_PATH_LEN;
    match r with
    | None => ret EXIT_FAILURE
    | Some basePath =>
        let fullPath := snprintf MAX_PATH_LEN
                          (c_str basePath ++ lit "\" ++ c_str folderName) in
        there ← directory_exists fullPath;
        if negb there then
          st ← call (mkdir_status sys (c_str fullPath));
          if negb (st =? 0) then
            perror (lit "Error creating directory");;
            ret EXIT_FAILURE
          else
            printf (lit "Directory created: " ++ c_str fullPath ++ [LF]);;
            enter_and_open fullPath
        else
          printf (lit "Directory already exists: " ++ c_str fullPath ++ [LF]);;
          enter_and_open fullPath
    end.

End Program.

End C.

(** ** main.cpp *)

Module Cpp.

Definition CONFIG_DIR : list ascii := lit "\AppData\Local\FolderManager".
Definition CONFIG_FILE : list ascii := lit "config.txt".
Definition DEFAULT_SUBDIR : list ascii := lit "Projects".

Section Program.
Variable sys : platform.

Definition cout (s : list ascii) : IO unit := emit (Out s).
Definition cerr (s : list ascii) : IO unit := emit (Err s).

(** [os << path]: the path between double quotes, with a backslash before
    each double quote and each backslash of it. *)
Definition quoted (path : list ascii) : list ascii :=
  [DQUOTE]
  ++ flat_map (λ c, if Ascii.eqb c DQUOTE || Ascii.eqb c "\" then ["\"; c] else [c]) path
  ++ [DQUOTE].

Definition getUserProfile : IO (list ascii) :=
  userProfile ← getenv_USERPROFILE;
  match userProfile with
  | None => cerr (lit "Error: USERPROFILE not found." ++ [LF]);; exit EXIT_FAILURE
  | Some userProfile => ret (c_str userProfile)
  end.

Definition getConfigFilePath : IO (list ascii) :=
  home ← getUserProfile;
  let configPath := home ++ CONFIG_DIR in
  made ← call (create_directories sys configPath);
  match made with
  | None => throw
  | Some _ => call (path_append sys configPath CONFIG_FILE)
  end.

Definition readOrCreateBasePath : IO (list ascii) :=
  configFile ← getConfigFilePath;
  file ← get (λ w, files w !! configFile);
  match file with
  | Some content => ret (getline_file content)
  | None =>
      home ← getUserProfile;
      let suggested := home ++ lit "\" ++ DEFAULT_SUBDIR in
      cout (lit "Config file not found." ++ [LF]);;
      cout (lit "Suggested default base directory: " ++ suggested ++ [LF]);;
      cout (lit "Use this as your base directory? (y/n): ");;
      response ← getline_cin [];
      basePath ←
        (if Ascii.eqb (tolower (char_at response 0)) "y" then ret suggested
         else
           cout (lit "Enter your preferred base directory: ");;
           getline_cin []);
      ok ← call (fopen_w_ok sys configFile);
      (if (ok : bool) then fprintf_file configFile (basePath ++ [LF]) else ret tt);;
      cout (lit "Saved base directory to config file." ++ [LF]);;
      ret basePath
  end.

(** One step of the range-based [for]: [output] after visiting [ch]. *)
Definition sanitize_step (output : list ascii) (ch : ascii) : list ascii :=
  if iscntrl ch || bool_decide (find invalid ch ≠ None) then output
  else output ++ [if isspace ch then "_" else ch].

Definition sanitizeFolderName (input : list ascii) : list ascii :=
  fold_left sanitize_step input [].

(** [promptForFolderName(original)]; the argument is the variable [name],
    equal to [original] on entry. *)
Fixpoint promptForFolderName (fuel : nat) (name : list ascii) : IO (list ascii) :=
  match fuel with
  | O => out_of_fuel
  | S fuel' =>
      let sanitized := sanitizeFolderName name in
      cout (lit "Sanitized folder name: " ++ [DQUOTE] ++ sanitized ++ [DQUOTE; LF]);;
      cout (lit "Do you want to use this name? (y/n): ");;
      response ← getline_cin [];
      if Ascii.eqb (tolower (char_at response 0)) "y" then ret sanitized
      else
        cout (lit "Enter a new folder name: ");;
        name ← getline_cin name;
        promptForFolderName fuel' name
  end.

Definition openInExplorer (path : list ascii) : IO unit :=
  call (ShellExecute_status sys (c_str path));;
  ret tt.

Definition openDownloadsFolder : IO unit :=
  '(hr, downloadsPath) ← call (Downloads sys);
  if SUCCEEDED hr then
    call (ShellExecute_status sys downloadsPath);;
    ret tt
  else
    cerr (lit "Error: Could not locate Downloads folder." ++ [LF]).

(** The end of [main], from [_chdir] on. *)
Definition enter_and_open (fullPath : list ascii) : IO Z :=
  st ← call (chdir_status sys (c_str fullPath));
  if negb (st =? 0) then
    perror (lit "Error changing directory");;
    ret EXIT_FAILURE
  else
    openInExplorer fullPath;;
    openDownloadsFolder;;
    ret EXIT_SUCCESS.

Definition main (fuel : nat) (argv : list (list ascii)) : IO Z :=
  if negb (length argv =? 2)%nat then
    cerr (lit "Usage: " ++ c_str (default [] (argv !! 0%nat))
          ++ lit " <folder_name>" ++ [LF]);;
    ret EXIT_FAILURE
  else
    folderName ← promptForFolderName fuel (c_str (default [] (argv !! 1%nat)));
    basePath ← readOrCreateBasePath;
    fullPath ← call (path_append sys basePath folderName);
    there ← call (fs_exists sys fullPath);
    if negb there then
      made ← call (create_directory sys fullPath);
      match made with
      | None => throw
      | Some false =>
          cerr (lit "Error creating directory: " ++ quoted fullPath ++ [LF]);;
          ret EXIT_FAILURE
      | Some true =>
          cout (lit "Directory created: " ++ quoted fullPath ++ [LF]);;
          enter_and_open fullPath
      end
    else
      cout (lit "Directory already exists: " ++ quoted fullPath ++ [LF]);;
      enter_and_open fullPath.

End Program.

End Cpp.

(** ** Vocabulary of the statements *)

Local Open Scope nat_scope.

(** A reserved character. *)
Definition reserved (c : ascii) : bool := existsb (Ascii.eqb c) invalid.

(** A character that is neither reserved nor a control character. *)
Definition kept (c : ascii) : bool := negb (reserved c) && negb (iscntrl c).

Definition underscore_for_space (c : ascii) : ascii :=
  if Ascii.eqb c " " then "_" else c.

(** The input without its reserved and control characters, each space
    replaced by an underscore. *)
Definition clean (s : list ascii) : list ascii :=
  map underscore_for_space (List.filter kept s).

(** A character the sanitisers leave alone. *)
Definition plain (c : ascii) : bool := kept c && negb (Ascii.eqb c " ").

(** A character allowed in a folder name. *)
Definition safe (c : ascii) : Prop := (c ∉ invalid) ∧ iscntrl c = false.

(** The sanitiser in the words of C1: every white-space character becomes
    an underscore, reserved and control characters are dropped. *)
Definition sanitize_claimed (s : list ascii) : list ascii :=
  flat_map (λ c, if isspace c then ["_"]
                 else if reserved c || iscntrl c then [] else [c]) s.

(** The loop of [sanitize_folder_name] seen from the pointer [input + i]. *)
Fixpoint walk (rest : list ascii) (j : nat) (output : list ascii) : nat * list ascii :=
  match rest with
  | [] => (j, output)
  | c :: rest' =>
      if negb (Ascii.eqb c NUL) && (j <? C.MAX_NAME_LEN - 1) then
        if strchr invalid c || iscntrl c then walk rest' j output
        else if isspace c then walk rest' (S j) (<[j := "_"]> output)
        else walk rest' (S j) (<[j := c]> output)
      else (j, output)
  end.

(** The longest prefix of [s] that holds no character of [stops]. *)
Fixpoint before_any (stops s : list ascii) : list ascii :=
  match s with
  | [] => []
  | c :: s' => if existsb (Ascii.eqb c) stops then [] else c :: before_any stops s'
  end.

(** The texts of the confirmation loop and of the resolver. *)
Definition display (name : list ascii) : list ascii :=
  lit "Sanitized folder name: " ++ [DQUOTE] ++ name ++ [DQUOTE; LF].
Definition question : list ascii := lit "Do you want to use this name? (y/n): ".
Definition ask_name : list ascii := lit "Enter a new folder name: ".
Definition ask_base : list ascii := lit "Enter your preferred base directory: ".

(** [msg] is printed between the worlds [before] and [after]. *)
Definition said (msg : list ascii) (before after : world) : Prop :=
  Out msg ∈ drop (length (trace before)) (trace after).

Definition is_Err (e : event) : bool :=
  match e with Err _ => true | _ => false end.

(** The configuration file of [main.c] for a home directory, and that of
    [main.cpp] on a given platform. *)
Definition c_config_path (home : list ascii) : list ascii :=
  c_str (strncat
           (snprintf C.MAX_PATH_LEN (c_str home ++ lit "\AppData\Local\FolderManager"))
           (lit "\config.txt")
           (C.MAX_PATH_LEN
            - strlen (snprintf C.MAX_PATH_LEN
                        (c_str home ++ lit "\AppData\Local\FolderManager"))
            - 1)).
Definition cpp_config_path (sys : platform) (home : list ascii) : list ascii :=
  path_append sys (c_str home ++ Cpp.CONFIG_DIR) Cpp.CONFIG_FILE.

(** *** Concrete data for the examples *)

(** The array [tempName] before the first call, full of anything. *)
Definition scratch : list ascii := replicate 256 "x".

Definition home_u : list ascii := lit "/home/u".

(** The two files for the home directory [/home/u]. *)
Definition c_config_txt : list ascii :=
  lit "/home/u\AppData\Local\FolderManager\config.txt".
Definition cpp_config_txt (sys : platform) : list ascii :=
  path_append sys (home_u ++ Cpp.CONFIG_DIR) Cpp.CONFIG_FILE.

(** A first run: no file yet, [input] waiting on standard input. *)
Definition demo_world (input : list ascii) : world :=
  World (Some home_u) input true ∅ [].

(** A world in which the configuration file holds [content]. *)
Definition configured_world (content : list ascii) : world :=
  World (Some home_u) [] true {[c_config_txt := content]} [].

(** A run in which the first name is refused and [new name] is entered
    and accepted: the world before, and the world after when [shown] was
    displayed first. *)
Definition renamed_in : world :=
  demo_world (["n"; LF] ++ lit "new name" ++ [LF; "y"; LF]).
Definition renamed_out (shown : list ascii) : world :=
  World (Some home_u) [] true ∅
    [Out (display shown); Out question; In ["n"; LF];
     Out ask_name; In (lit "new name" ++ [LF]);
     Out (display (lit "new_name")); Out question; In ["y"; LF]].

(** A platform on which every call succeeds and no directory exists yet. *)
Definition demo_sys : platform :=
  Platform (λ _, C.INVALID_FILE_ATTRIBUTES) (λ _, 0%Z) (λ _, 0%Z) (λ _, 42%Z)
           (0%Z, lit "C:\Users\u\Downloads") (λ _, true)
           (λ p q, p ++ lit "\" ++ q) (λ _, false) (λ _, Some true) (λ _, Some true).



Definition demo_argv : list (list ascii) := [lit "FolderManager"; lit "my folder"].

(** One refused round on the input: [n], then the new name [new name];
    and [k] of them. *)
Definition refusal : list ascii := ["n"; LF] ++ lit "new name" ++ [LF].
Definition refusals (k : nat) : list ascii := concat (replicate k refusal).

(** *** Vocabulary of the further properties *)

(** A computation [keeps] a relation between worlds when every run of it,
    however it ends, leaves a world related to the one it started in. *)
Definition keeps {A} (R : world → world → Prop) (m : IO A) : Prop :=
  ∀ w, R w (snd (m w)).

(** The later world differs from the earlier one by talk on the terminal
    only: same environment and files, input read forward, and a trace
    longer by events that are not writes to standard error. *)
Definition only_talked (w w' : world) : Prop :=
  USERPROFILE w' = USERPROFILE w ∧ files w' = files w ∧
  (∃ taken, stdin w = taken ++ stdin w') ∧
  ∃ events, trace w' = trace w ++ events ∧ Forall (λ e, is_Err e = false) events.

(** The later world has the environment of the earlier one and its files,
    but for the file at [path]. *)
Definition wrote_at_most (path : list ascii) (w w' : world) : Prop :=
  USERPROFILE w' = USERPROFILE w ∧
  ∀ other, other ≠ path → files w' !! other = files w !! other.

(** The usage line of both programs, for the name the program was
    started under. *)
Definition usage (program : list ascii) : list ascii :=
  lit "Usage: " ++ c_str program ++ lit " <folder_name>" ++ [LF].

(** The full path [main.c] builds from a base path and a name. *)
Definition c_full_path (basePath name : list ascii) : list ascii :=
  snprintf C.MAX_PATH_LEN (c_str basePath ++ lit "\" ++ c_str name).

(** A world without [USERPROFILE]. *)
Definition homeless_world (input : list ascii) : world :=
  World None input true ∅ [].

(** Platforms on which no directory can be created, on which none can be
    entered, and on which no file can be opened for writing. *)
Definition no_mkdir : platform :=
  Platform (λ _, C.INVALID_FILE_ATTRIBUTES) (λ _, (-1)%Z) (λ _, 0%Z) (λ _, 42%Z)
           (0%Z, lit "C:\Users\u\Downloads") (λ _, true)
           (λ p q, p ++ lit "\" ++ q) (λ _, false) (λ _, Some true) (λ _, Some false).
Definition no_chdir : platform :=
  Platform (λ _, C.INVALID_FILE_ATTRIBUTES) (λ _, 0%Z) (λ _, (-1)%Z) (λ _, 42%Z)
           (0%Z, lit "C:\Users\u\Downloads") (λ _, true)
           (λ p q, p ++ lit "\" ++ q) (λ _, false) (λ _, Some true) (λ _, Some true).
Definition read_only : platform :=
  Platform (λ _, C.INVALID_FILE_ATTRIBUTES) (λ _, 0%Z) (λ _, 0%Z) (λ _, 42%Z)
           (0%Z, lit "C:\Users\u\Downloads") (λ _, false)
           (λ p q, p ++ lit "\" ++ q) (λ _, false) (λ _, Some true) (λ _, Some true).

(** The two lines that announce the target directory. *)
Definition announcements : list (list ascii) :=
  [lit "Directory created: "; lit "Directory already exists: "].

(** A string without carriage return and new-line. *)
Definition one_line (s : list ascii) : Prop := Forall (λ c, c ≠ CR ∧ c ≠ LF) s.

(** Nothing is taken back from the trace between two worlds. *)
Definition trace_grows (w w' : world) : Prop := ∃ events, trace w' = trace w ++ events.

(** An argument of 255 reserved characters and one letter. *)
Definition long_argv : list (list ascii) :=
  [lit "FolderManager"; replicate 255 "<" ++ ["a"]].

(** One case for each of the 256 characters. *)
Ltac each_char c := destruct c as [[] [] [] [] [] [] [] []].

(** * Properties *)

(** ** The examples of the specification *)

Example sanitize_my_folder :
  c_str <$> C.sanitize_folder_name (lit "my folder") scratch = Some (lit "my_folder") ∧
  Cpp.sanitizeFolderName (lit "my folder") = lit "my_folder".
Proof. vm_compute. done. Qed.

Example sanitize_angle_brackets :
  c_str <$> C.sanitize_folder_name (lit "a<b>c") scratch = Some (lit "abc") ∧
  Cpp.sanitizeFolderName (lit "a<b>c") = lit "abc".
Proof. vm_compute. done. Qed.

Example sanitize_empty :
  c_str <$> C.sanitize_folder_name [] scratch = Some [] ∧
  Cpp.sanitizeFolderName [] = [].
Proof. vm_compute. done. Qed.

(** ** Characters *)

Lemma reserved_elem_of c : reserved c = true ↔ c ∈ invalid.
Proof.
  unfold reserved. rewrite existsb_exists. split.
  - intros (x & Hx & Heq). apply Ascii.eqb_eq in Heq. subst x.
    by apply list_elem_of_In.
  - intros H. exists c. split; [by apply list_elem_of_In | apply Ascii.eqb_refl].
Qed.

Lemma strchr_invalid c : c ≠ NUL → strchr invalid c = reserved c.
Proof.
  intros H. unfold strchr. change (c_str invalid) with invalid.
  fold (reserved c). destruct (Ascii.eqb_spec c NUL); [done|]. apply orb_false_r.
Qed.

Lemma find_invalid c : bool_decide (find invalid c ≠ None) = reserved c.
Proof. each_char c; vm_compute; reflexivity. Qed.

Lemma kept_blank c : kept c = true → (if isspace c then "_" else c) = underscore_for_space c.
Proof. each_char c; vm_compute; first [reflexivity | discriminate]. Qed.

Lemma plain_underscore_for_space c : kept c = true → plain (underscore_for_space c) = true.
Proof. each_char c; vm_compute; first [reflexivity | discriminate]. Qed.

Lemma plain_fixed c : plain c = true → kept c = true ∧ underscore_for_space c = c ∧ c ≠ NUL.
Proof. each_char c; vm_compute; intros; try discriminate; repeat split; discriminate. Qed.

Lemma plain_safe c : plain c = true → (c ∉ invalid) ∧ iscntrl c = false.
Proof.
  intros H. unfold plain, kept in H.
  apply andb_prop in H as [H _]. apply andb_prop in H as [H1 H2].
  split.
  - intros Hin. apply reserved_elem_of in Hin. rewrite Hin in H1. discriminate.
  - by destruct (iscntrl c).
Qed.

(** ** The sanitisers *)

Lemma clean_plain s : Forall (λ c, plain c = true) (clean s).
Proof.
  unfold clean. induction s as [|c s IH]; simpl; [constructor|].
  destruct (kept c) eqn:Hk; simpl; [|done].
  constructor; [by apply plain_underscore_for_space | done].
Qed.

Lemma clean_fixed s : Forall (λ c, plain c = true) s → clean s = s.
Proof.
  unfold clean. induction 1 as [|c s Hc _ IH]; simpl; [done|].
  destruct (plain_fixed c Hc) as (Hk & Hu & _).
  rewrite Hk. simpl. by rewrite Hu, IH.
Qed.

Lemma c_str_fixed s : Forall (λ c, plain c = true) s → c_str s = s.
Proof.
  induction 1 as [|c s Hc _ IH]; simpl; [done|].
  destruct (plain_fixed c Hc) as (_ & _ & Hn).
  destruct (Ascii.eqb_spec c NUL); [done|]. by rewrite IH.
Qed.

Lemma c_str_app_NUL s rest : Forall (λ c, plain c = true) s → c_str (s ++ NUL :: rest) = s.
Proof.
  induction 1 as [|c s Hc _ IH]; simpl; [done|].
  destruct (plain_fixed c Hc) as (_ & _ & Hn).
  destruct (Ascii.eqb_spec c NUL); [done|]. by rewrite IH.
Qed.

Lemma clean_app s t : clean (s ++ t) = clean s ++ clean t.
Proof. unfold clean. by rewrite List.filter_app, map_app. Qed.

Lemma c_str_no_NUL s : Forall (λ c, c ≠ NUL) (c_str s).
Proof.
  induction s as [|c s IH]; simpl; [constructor|].
  destruct (Ascii.eqb_spec c NUL); constructor; done.
Qed.

Lemma c_str_idemp s : c_str (c_str s) = c_str s.
Proof.
  induction s as [|c s IH]; simpl; [done|].
  destruct (Ascii.eqb_spec c NUL) as [|Hn]; simpl; [done|].
  destruct (Ascii.eqb_spec c NUL); [done|]. by rewrite IH.
Qed.

(** *** The loop of [sanitize_folder_name] *)

Lemma char_at_drop_nil input i : drop i input = [] → char_at input i = NUL.
Proof.
  intros H. unfold char_at. rewrite lookup_ge_None_2; [done|].
  apply drop_nil_inv in H. lia.
Qed.

Lemma char_at_drop_cons input i c rest :
  drop i input = c :: rest → char_at input i = c ∧ drop (S i) input = rest.
Proof.
  intros H. split.
  - unfold char_at. rewrite <- (Nat.add_0_r i), <- lookup_drop, H. done.
  - replace (S i) with (i + 1) by lia. by rewrite <- drop_drop, H.
Qed.

Lemma sanitize_loop_walk fuel input i j output :
  length input - i < fuel →
  C.sanitize_loop fuel input i j output = Some (walk (drop i input) j output).
Proof.
  revert i j output. induction fuel as [|fuel IH]; intros i j output Hfuel; [lia|].
  simpl. destruct (drop i input) as [|c rest] eqn:Hd.
  - by rewrite (char_at_drop_nil _ _ Hd).
  - destruct (char_at_drop_cons _ _ _ _ Hd) as [-> Hd'].
    assert (i < length input).
    { destruct (decide (i < length input)); [done|].
      rewrite drop_ge in Hd by lia. done. }
    rewrite !IH by lia. rewrite Hd'. cbn [walk].
    change (C.MAX_NAME_LEN - 1) with 255. repeat case_match; reflexivity.
Qed.

Lemma clean_cons c s :
  clean (c :: s) = if kept c then underscore_for_space c :: clean s else clean s.
Proof. unfold clean. simpl. by destruct (kept c). Qed.

Lemma walk_spec rest pre post j :
  length pre = j → j ≤ 255 → 256 - j ≤ length post →
  walk rest j (pre ++ post) =
    (j + length (take (255 - j) (clean (c_str rest))),
     pre ++ take (255 - j) (clean (c_str rest))
         ++ drop (length (take (255 - j) (clean (c_str rest)))) post).
Proof.
  revert pre post j. induction rest as [|c rest IH]; intros pre post j Hj Hle Hpost.
  { change (clean (c_str [])) with (@nil ascii). rewrite take_nil. simpl.
    by rewrite Nat.add_0_r. }
  cbn [walk c_str].
  destruct (Ascii.eqb_spec c NUL) as [->|Hn]; simpl negb; cbn [andb].
  { change (clean []) with (@nil ascii). rewrite take_nil. simpl.
    by rewrite Nat.add_0_r. }
  change (C.MAX_NAME_LEN - 1) with 255.
  destruct (Nat.ltb_spec j 255) as [Hlt|Hge].
  2:{ replace (255 - j) with 0 by lia. simpl. by rewrite Nat.add_0_r. }
  rewrite strchr_invalid, clean_cons by done.
  replace (reserved c || iscntrl c) with (negb (kept c))
    by (unfold kept; destruct (reserved c), (iscntrl c); done).
  destruct (kept c) eqn:Hk; cbn [negb]; [|by apply IH].
  pose proof (kept_blank c Hk) as Hb.
  assert (Hw : ∀ x, walk rest (S j) (<[j := x]> (pre ++ post)) =
     (j + length (take (255 - j) (x :: clean (c_str rest))),
      pre ++ take (255 - j) (x :: clean (c_str rest))
          ++ drop (length (take (255 - j) (x :: clean (c_str rest)))) post)).
  { intros x. destruct post as [|p post]; [simpl in Hpost; lia|].
    rewrite insert_app_r_alt by lia. rewrite Hj, Nat.sub_diag. simpl.
    rewrite (cons_middle x pre post), app_assoc.
    rewrite IH; [|rewrite length_app; simpl; lia| lia | simpl in Hpost; lia].
    replace (255 - j) with (S (255 - S j)) by lia.
    cbn [take length drop]. rewrite <- app_assoc. simpl.
    f_equal. lia. }
  rewrite <- Hb. destruct (isspace c); apply Hw.
Qed.

Lemma take_clean_plain n s : Forall (λ c, plain c = true) (take n (clean s)).
Proof. apply Forall_take, clean_plain. Qed.

Lemma walk_from_start input output :
  256 ≤ length output →
  walk input 0 output =
    (length (take 255 (clean (c_str input))),
     take 255 (clean (c_str input))
       ++ drop (length (take 255 (clean (c_str input)))) output).
Proof.
  intros H.
  exact (walk_spec input [] output 0 eq_refl ltac:(lia) ltac:(simpl; lia)).
Qed.

Lemma sanitize_folder_name_spec input output :
  length output = C.MAX_NAME_LEN →
  ∃ buf, C.sanitize_folder_name input output = Some buf
       ∧ length buf = C.MAX_NAME_LEN
       ∧ c_str buf = take 255 (clean (c_str input)).
Proof.
  intros Hlen. change C.MAX_NAME_LEN with 256 in *.
  unfold C.sanitize_folder_name.
  rewrite sanitize_loop_walk, drop_0 by lia.
  rewrite walk_from_start by lia. cbn [mbind option_bind].
  set (w := take 255 (clean (c_str input))).
  assert (Hw : length w ≤ 255) by (subst w; rewrite length_take; lia).
  destruct (drop (length w) output) as [|x rest] eqn:Hd.
  { apply drop_nil_inv in Hd. lia. }
  eexists. split; [reflexivity|].
  assert (Hins : <[length w := NUL]> (w ++ x :: rest) = w ++ NUL :: rest).
  { rewrite insert_app_r_alt by lia. by rewrite Nat.sub_diag. }
  rewrite Hins. split.
  - rewrite length_app. simpl.
    assert (length (drop (length w) output) = S (length rest)) by (by rewrite Hd).
    rewrite length_drop in *. lia.
  - apply c_str_app_NUL, take_clean_plain.
Qed.

(** *** The loop of [sanitizeFolderName] *)

Lemma fold_sanitize_step input acc :
  fold_left Cpp.sanitize_step input acc = acc ++ clean input.
Proof.
  revert acc. induction input as [|ch input IH]; intros acc; simpl.
  { by rewrite app_nil_r. }
  rewrite IH, clean_cons. unfold Cpp.sanitize_step.
  rewrite find_invalid, orb_comm.
  replace (reserved ch || iscntrl ch) with (negb (kept ch))
    by (unfold kept; destruct (reserved ch), (iscntrl ch); done).
  destruct (kept ch) eqn:Hk; cbn [negb]; [|done].
  by rewrite (kept_blank ch Hk), <- app_assoc.
Qed.

Lemma sanitizeFolderName_clean input : Cpp.sanitizeFolderName input = clean input.
Proof. unfold Cpp.sanitizeFolderName. by rewrite fold_sanitize_step. Qed.

(** ** Running computations *)
Lemma run_bind {A B} (m : IO A) (k : A → IO B) w a w' :
  m w = (Val a, w') → (m ≫= k) w = k a w'.
Proof. intros H. unfold mbind, IO_bind, bind. by rewrite H. Qed.

Lemma bind_Val_inv {A B} (m : IO A) (k : A → IO B) w b w' :
  (m ≫= k) w = (Val b, w') → ∃ a w1, m w = (Val a, w1) ∧ k a w1 = (Val b, w').
Proof.
  unfold mbind, IO_bind, bind. destruct (m w) as [[a| | |] w1]; intros H;
    try discriminate. by exists a, w1.
Qed.

Lemma fgets_stdin_Val n w : ∃ r w1, fgets_stdin n w = (Val r, w1).
Proof.
  unfold fgets_stdin. destruct (fgets_chars (n - 1) (stdin w)) as [[|c l] rest];
    by eexists _, _.
Qed.

Lemma getline_cin_Val str w : ∃ l w1, getline_cin str w = (Val l, w1).
Proof.
  unfold getline_cin. destruct (cin_good w); [|by eexists _, _].
  destruct (split_line (stdin w)) as [l [rest|]]; by eexists _, _.
Qed.

(** Runs the next statement of a computation when its outcome is known
    by evaluation. *)
Ltac run_with tac := erewrite run_bind by tac; cbv beta iota zeta.
Ltac run := run_with ltac:(reflexivity).

Lemma fgets_chars_head k c rest :
  ∃ l r, fgets_chars (S k) (c :: rest) = (c :: l, r).
Proof.
  simpl. destruct (Ascii.eqb_spec c LF) as [->|_]; [by eexists _, _|].
  destruct (fgets_chars k rest) as [l r]. by eexists _, _.
Qed.

Lemma fgets_stdin_cons n c rest w :
  stdin w = c :: rest →
  ∃ l r, fgets_stdin (S (S n)) w
         = (Val (Some (c :: l)), log (In (c :: l)) (set_stdin r (cin_good w) w)).
Proof.
  intros Hin. unfold fgets_stdin. rewrite Hin.
  replace (S (S n) - 1) with (S n) by lia.
  destruct (fgets_chars_head n c rest) as (l & r & ->). by exists l, r.
Qed.

Lemma fgets_stdin_trace n w r w' :
  fgets_stdin n w = (Val r, w') → trace w' = trace w ++ [In (default [] r)].
Proof.
  unfold fgets_stdin. destruct (fgets_chars (n - 1) (stdin w)) as [[|c l] rest];
    intros H; injection H as <- <-; reflexivity.
Qed.

(** Names the world a computation is about to run in and records its trace. *)
Ltac name_world w1 Ht Hs Hg :=
  match goal with
  | |- context [ (_ ≫= _) ?w0 ] =>
      let t := eval cbn [trace log set_stdin set_file] in (trace w0) in
      let s := eval cbn [stdin log set_stdin set_file] in (stdin w0) in
      let g := eval cbn [cin_good log set_stdin set_file] in (cin_good w0) in
      assert (Ht : trace w0 = t) by reflexivity;
      assert (Hs : stdin w0 = s) by reflexivity;
      assert (Hg : cin_good w0 = g) by reflexivity;
      set (w1 := w0) in *; clearbody w1
  end.

(** Settles that a message is not among explicit events. *)
Ltac not_said H :=
  exfalso;
  repeat (apply elem_of_app in H as [H|H]);
  repeat (apply elem_of_cons in H as [H|H];
          [first [ discriminate H
                 | injection H as H; apply (f_equal head) in H; lazy in H;
                   discriminate H ]|]);
  by apply elem_of_nil in H.

Lemma said_app msg w w' events :
  trace w' = trace w ++ events → said msg w w' ↔ Out msg ∈ events.
Proof. intros H. unfold said. by rewrite H, drop_app_length. Qed.

Lemma tolower_y c : Ascii.eqb (tolower c) "y" = true ↔ c = "y" ∨ c = "Y".
Proof.
  each_char c; vm_compute; split; intros H; try discriminate; auto;
    destruct H as [H|H]; discriminate.
Qed.

Lemma fgets_stdin_yes rest w :
  stdin w = "y" :: LF :: rest →
  fgets_stdin 10 w =
    (Val (Some ["y"; LF]), log (In ["y"; LF]) (set_stdin rest (cin_good w) w)).
Proof. intros H. unfold fgets_stdin. rewrite H. reflexivity. Qed.

Lemma getline_cin_yes str rest w :
  stdin w = "y" :: LF :: rest → cin_good w = true →
  getline_cin str w = (Val ["y"], log (In ["y"; LF]) (set_stdin rest true w)).
Proof. intros H G. unfold getline_cin. rewrite H, G. reflexivity. Qed.

(** ** The confirmation loop *)

Lemma C_prompt_yes fuel raw tempName response rest w :
  length tempName = C.MAX_NAME_LEN →
  stdin w = "y" :: LF :: rest →
  ∃ buf, C.sanitize_folder_name raw tempName = Some buf ∧
    C.prompt_user_for_folder_name (S fuel) tempName response raw w =
      (Val (c_str buf),
       World (USERPROFILE w) rest (cin_good w) (files w)
             (trace w ++ [Out (display (c_str buf)); Out question; In ["y"; LF]])).
Proof.
  intros Hlen Hin.
  destruct (sanitize_folder_name_spec raw tempName Hlen) as (buf & Hbuf & _ & _).
  exists buf. split; [done|].
  cbn [C.prompt_user_for_folder_name]. rewrite Hbuf.
  run. run. run_with ltac:(by apply fgets_stdin_yes).
  change (default response (Some ["y"; LF])) with ["y"; LF].
  change (Ascii.eqb (tolower (char_at ["y"; LF] 0)) "y") with true. cbv iota.
  unfold ret, log, set_stdin, display, question. cbn [USERPROFILE stdin cin_good files trace].
  by rewrite <- !app_assoc.
Qed.

Lemma Cpp_prompt_yes fuel raw rest w :
  stdin w = "y" :: LF :: rest → cin_good w = true →
  Cpp.promptForFolderName (S fuel) raw w =
    (Val (Cpp.sanitizeFolderName raw),
     World (USERPROFILE w) rest true (files w)
           (trace w ++ [Out (display (Cpp.sanitizeFolderName raw)); Out question;
                        In ["y"; LF]])).
Proof.
  intros Hin Hgood. cbn [Cpp.promptForFolderName].
  run. run. run_with ltac:(by apply getline_cin_yes).
  change (Ascii.eqb (tolower (char_at ["y"] 0)) "y") with true. cbv iota.
  unfold ret, log, set_stdin, display, question. cbn [USERPROFILE stdin cin_good files trace].
  by rewrite <- !app_assoc.
Qed.

(** Whatever the loop of [main.c] returns is the sanitised form of some
    candidate, written to a buffer of [MAX_NAME_LEN] bytes. *)
Lemma C_prompt_returns fuel tempName response finalName w name w' :
  length tempName = C.MAX_NAME_LEN →
  C.prompt_user_for_folder_name fuel tempName response finalName w = (Val name, w') →
  ∃ candidate output buf,
    length output = C.MAX_NAME_LEN ∧
    C.sanitize_folder_name candidate output = Some buf ∧ name = c_str buf.
Proof.
  revert tempName response finalName w.
  induction fuel as [|fuel IH]; intros tempName response finalName w Hlen Hrun;
    [discriminate|].
  cbn [C.prompt_user_for_folder_name] in Hrun.
  destruct (sanitize_folder_name_spec finalName tempName Hlen) as (buf & Hbuf & Hlb & _).
  rewrite Hbuf in Hrun.
  apply bind_Val_inv in Hrun as (? & w1 & _ & Hrun).
  apply bind_Val_inv in Hrun as (? & w2 & _ & Hrun).
  apply bind_Val_inv in Hrun as (r & w3 & _ & Hrun).
  cbv zeta in Hrun.
  destruct (Ascii.eqb (tolower (char_at (default response r) 0)) "y").
  - injection Hrun as <- _. by exists finalName, tempName, buf.
  - apply bind_Val_inv in Hrun as (? & w4 & _ & Hrun).
    apply bind_Val_inv in Hrun as (r' & w5 & _ & Hrun).
    by eapply IH.
Qed.

Lemma Cpp_prompt_returns fuel name0 w name w' :
  Cpp.promptForFolderName fuel name0 w = (Val name, w') →
  ∃ candidate, name = Cpp.sanitizeFolderName candidate.
Proof.
  revert name0 w. induction fuel as [|fuel IH]; intros name0 w Hrun; [discriminate|].
  cbn [Cpp.promptForFolderName] in Hrun.
  apply bind_Val_inv in Hrun as (? & w1 & _ & Hrun).
  apply bind_Val_inv in Hrun as (? & w2 & _ & Hrun).
  apply bind_Val_inv in Hrun as (response & w3 & _ & Hrun).
  destruct (Ascii.eqb (tolower (char_at response 0)) "y").
  - injection Hrun as <- _. by exists name0.
  - apply bind_Val_inv in Hrun as (? & w4 & _ & Hrun).
    apply bind_Val_inv in Hrun as (name1 & w5 & _ & Hrun).
    by eapply IH.
Qed.

Lemma take_all_clean s : length (take 255 (clean s)) ≤ 255.
Proof. rewrite length_take. lia. Qed.

(** A sanitised name passes through [sanitize_folder_name] unchanged. *)
Lemma C_sanitize_fixed input output buf output' :
  length output = C.MAX_NAME_LEN → length output' = C.MAX_NAME_LEN →
  C.sanitize_folder_name input output = Some buf →
  ∃ buf', C.sanitize_folder_name (c_str buf) output' = Some buf' ∧ c_str buf' = c_str buf.
Proof.
  intros Hlen Hlen' Hbuf.
  destruct (sanitize_folder_name_spec input output Hlen) as (b & Hb & _ & Hs).
  rewrite Hbuf in Hb. injection Hb as <-.
  destruct (sanitize_folder_name_spec (c_str buf) output' Hlen') as (buf' & Hb' & _ & Hs').
  exists buf'. split; [done|].
  rewrite Hs', c_str_idemp, Hs.
  rewrite clean_fixed by apply take_clean_plain.
  apply take_ge, take_all_clean.
Qed.

Lemma Out_inj a b : Out a = Out b → a = b.
Proof. by intros [= ->]. Qed.

Lemma display_inj s t : display s = display t → s = t.
Proof.
  unfold display. intros H. apply app_inv_head in H. apply app_inv_head in H.
  by apply app_inv_tail in H.
Qed.

Lemma display_not_question s : display s ≠ question.
Proof. intros H. apply (f_equal head) in H. discriminate H. Qed.

Lemma display_not_ask_name s : display s ≠ ask_name.
Proof. intros H. apply (f_equal head) in H. discriminate H. Qed.

(** Every name the loop of [main.c] displays has at most 255 characters,
    whether the run returns or not. *)
Lemma C_prompt_displays fuel tempName response finalName w :
  length tempName = C.MAX_NAME_LEN →
  ∃ events,
    trace (snd (C.prompt_user_for_folder_name fuel tempName response finalName w))
      = trace w ++ events ∧
    ∀ s, Out (display s) ∈ events → length s ≤ 255.
Proof.
  revert tempName response finalName w.
  induction fuel as [|fuel IH]; intros tempName response finalName w Hlen.
  { exists []. split; [by rewrite app_nil_r|]. intros s Hs. by apply elem_of_nil in Hs. }
  cbn [C.prompt_user_for_folder_name].
  destruct (sanitize_folder_name_spec finalName tempName Hlen) as (buf & Hbuf & Hlb & Hs).
  rewrite Hbuf. fold (display (c_str buf)). fold question.
  run. run. name_world w1 Ht Hs1 Hg1.
  destruct (fgets_stdin_Val 10 w1) as (r & w2 & Hr).
  pose proof (fgets_stdin_trace _ _ _ _ Hr) as Ht2.
  run_with ltac:(exact Hr).
  assert (Hshown : ∀ s, Out (display s) = Out (display (c_str buf)) → length s ≤ 255).
  { intros s H. apply Out_inj, display_inj in H. subst s.
    rewrite Hs. apply take_all_clean. }
  destruct (Ascii.eqb (tolower (char_at (default response r) 0)) "y").
  - unfold ret. cbn [snd]. eexists. split.
    { rewrite Ht2, Ht, <- !app_assoc. reflexivity. }
    intros s Hin. cbn [app] in Hin.
    apply elem_of_cons in Hin as [Hin|Hin]; [by apply Hshown|].
    apply elem_of_cons in Hin as [Hin|Hin].
    { apply Out_inj in Hin. by apply display_not_question in Hin. }
    apply elem_of_cons in Hin as [Hin|Hin]; [discriminate|]. by apply elem_of_nil in Hin.
  - fold ask_name. run. name_world w3 Ht3 Hs3 Hg3.
    destruct (fgets_stdin_Val C.MAX_NAME_LEN w3) as (r' & w4 & Hr').
    pose proof (fgets_stdin_trace _ _ _ _ Hr') as Ht4.
    run_with ltac:(exact Hr').
    destruct (IH buf (default response r)
                (cut_at (strcspn (default finalName r') [CR; LF]) (default finalName r'))
                w4 Hlb) as (events & Hev & Hall).
    eexists. split.
    { rewrite Hev, Ht4, Ht3, Ht2, Ht, <- !app_assoc. reflexivity. }
    intros s Hin. cbn [app] in Hin.
    apply elem_of_cons in Hin as [Hin|Hin]; [by apply Hshown|].
    apply elem_of_cons in Hin as [Hin|Hin].
    { apply Out_inj in Hin. by apply display_not_question in Hin. }
    apply elem_of_cons in Hin as [Hin|Hin]; [discriminate|].
    apply elem_of_cons in Hin as [Hin|Hin].
    { apply Out_inj in Hin. by apply display_not_ask_name in Hin. }
    apply elem_of_cons in Hin as [Hin|Hin]; [discriminate|].
    by apply Hall.
Qed.

(** ** Claims on the sanitisers and on the confirmation loop *)

Lemma Forall_plain_safe s : Forall (λ c, plain c = true) s → Forall safe s.
Proof. intros H. eapply Forall_impl; [exact H|]. intros c. apply plain_safe. Qed.

Lemma white_control_dropped c : isspace c = true → c ≠ " " → kept c = false.
Proof.
  each_char c; vm_compute; intros H1 H2; first [reflexivity | discriminate | by destruct H2].
Qed.

(** C1, as stated, fails: a tab is a white-space character of the input
    and no underscore stands for it in the output. *)
Lemma tab_is_dropped_not_replaced :
  isspace TAB = true ∧
  Cpp.sanitizeFolderName ["a"; TAB; "b"] = ["a"; "b"] ∧
  c_str <$> C.sanitize_folder_name ["a"; TAB; "b"] scratch = Some ["a"; "b"] ∧
  sanitize_claimed ["a"; TAB; "b"] = ["a"; "_"; "b"] ∧
  Cpp.sanitizeFolderName ["a"; TAB; "b"] ≠ sanitize_claimed ["a"; TAB; "b"].
Proof. vm_compute. repeat split; discriminate. Qed.

(** C1 (amended).  The output of either sanitiser holds no reserved and no
    control character.  It is the input without its reserved and control
    characters, among them the white-space characters other than the
    space, with each space replaced by one underscore and every other
    character unchanged, in order; [sanitize_folder_name] keeps the first
    255 characters of it. *)
Theorem sanitize_output_characterised (input output : list ascii) :
  (length output = C.MAX_NAME_LEN →
   ∃ buf, C.sanitize_folder_name input output = Some buf ∧
     Forall safe (c_str buf) ∧
     c_str buf = take 255 (map underscore_for_space (List.filter kept (c_str input))))
  ∧ Forall safe (Cpp.sanitizeFolderName input)
  ∧ Cpp.sanitizeFolderName input = map underscore_for_space (List.filter kept input)
  ∧ (∀ c, isspace c = true → c ≠ " " → kept c = false).
Proof.
  repeat apply conj.
  - intros Hlen.
    destruct (sanitize_folder_name_spec input output Hlen) as (buf & Hbuf & _ & Hs).
    exists buf. repeat split; [done| |done].
    rewrite Hs. apply Forall_plain_safe, take_clean_plain.
  - rewrite sanitizeFolderName_clean. apply Forall_plain_safe, clean_plain.
  - apply sanitizeFolderName_clean.
  - apply white_control_dropped.
Qed.

Lemma sanitize_output_characterised_witness :
  length scratch = C.MAX_NAME_LEN ∧
  ∃ buf, C.sanitize_folder_name (lit "my folder") scratch = Some buf ∧
         Forall safe (c_str buf) ∧
         c_str buf = take 255 (map underscore_for_space
                                   (List.filter kept (c_str (lit "my folder")))).
Proof.
  split; [reflexivity|].
  exact (proj1 (sanitize_output_characterised (lit "my folder") scratch) eq_refl).
Defined.

(** C2.  Both sanitisers return on every input, and sanitising a sanitised
    name gives it back: [sanitize_folder_name] leaves its loop before the
    fuel is spent, and a second call on the buffer it filled writes the
    same string. *)
Theorem sanitize_total_idempotent (input output output' : list ascii) :
  (length output = C.MAX_NAME_LEN → length output' = C.MAX_NAME_LEN →
   ∃ buf buf', C.sanitize_folder_name input output = Some buf ∧
        C.sanitize_folder_name buf output' = Some buf' ∧ c_str buf' = c_str buf)
  ∧ Cpp.sanitizeFolderName (Cpp.sanitizeFolderName input) = Cpp.sanitizeFolderName input.
Proof.
  split.
  - intros Hlen Hlen'.
    destruct (sanitize_folder_name_spec input output Hlen) as (buf & Hbuf & Hlb & Hs).
    destruct (sanitize_folder_name_spec buf output' Hlen') as (buf' & Hbuf' & _ & Hs').
    exists buf, buf'. repeat split; [done..|].
    rewrite Hs', Hs, clean_fixed by apply take_clean_plain.
    apply take_ge, take_all_clean.
  - rewrite !sanitizeFolderName_clean. apply clean_fixed, clean_plain.
Qed.

Lemma sanitize_total_idempotent_witness :
  length scratch = C.MAX_NAME_LEN ∧
  ∃ buf buf', C.sanitize_folder_name (lit "a<b> c") scratch = Some buf ∧
        C.sanitize_folder_name buf scratch = Some buf' ∧ c_str buf' = c_str buf.
Proof.
  split; [reflexivity|].
  exact (proj1 (sanitize_total_idempotent (lit "a<b> c") scratch scratch) eq_refl eq_refl).
Defined.

(** C3, as stated, fails on [main.cpp]: [sanitizeFolderName] has no
    maximum, and a name of 256 characters comes back whole, from the
    function and from the confirmation loop. *)
Lemma cpp_name_not_truncated :
  Cpp.sanitizeFolderName (replicate 256 "a") = replicate 256 "a" ∧
  fst (Cpp.promptForFolderName 1 (replicate 256 "a") (demo_world ["y"; LF]))
    = Val (replicate 256 "a") ∧
  ¬ length (Cpp.sanitizeFolderName (replicate 256 "a")) ≤ 255.
Proof. vm_compute. repeat split. lia. Qed.

(** C3 (amended).  In [main.c], [sanitize_folder_name] writes the first 255
    characters of the sanitised input and no more, and so does every
    round of the confirmation loop, for the name of the command line and
    for a name entered again: every name the loop displays, and the name
    it returns, has at most 255 characters.  [sanitizeFolderName] of
    [main.cpp] has no maximum. *)
Theorem c_name_truncated_at_255 (fuel : nat)
    (input output tempName response finalName name : list ascii) (w w' : world) :
  (length output = C.MAX_NAME_LEN →
   ∃ buf, C.sanitize_folder_name input output = Some buf ∧
     c_str buf = take 255 (map underscore_for_space (List.filter kept (c_str input))) ∧
     length (c_str buf) ≤ 255)
  ∧ (length tempName = C.MAX_NAME_LEN →
     (∀ shown,
        said (display shown) w
             (snd (C.prompt_user_for_folder_name fuel tempName response finalName w)) →
        length shown ≤ 255)
     ∧ (C.prompt_user_for_folder_name fuel tempName response finalName w = (Val name, w') →
        length name ≤ 255))
  ∧ (∀ n, Cpp.sanitizeFolderName (replicate n "a") = replicate n "a").
Proof.
  repeat apply conj.
  - intros Hlen.
    destruct (sanitize_folder_name_spec input output Hlen) as (buf & Hbuf & _ & Hs).
    exists buf. repeat split; [done..|]. rewrite Hs. apply take_all_clean.
  - intros Hlen'. split.
    + intros shown Hsaid.
      destruct (C_prompt_displays fuel tempName response finalName w Hlen')
        as (events & Hev & Hall).
      apply Hall. by apply (said_app _ _ _ _ Hev).
    + intros Hrun.
      destruct (C_prompt_returns _ _ _ _ _ _ _ Hlen' Hrun)
        as (cand & out & buf & Ho & Hb & ->).
      destruct (sanitize_folder_name_spec cand out Ho) as (b & Hb' & _ & Hs).
      rewrite Hb in Hb'. injection Hb' as <-. rewrite Hs. apply take_all_clean.
  - intros n. rewrite sanitizeFolderName_clean. apply clean_fixed.
    by apply Forall_replicate.
Qed.

Lemma c_name_truncated_at_255_witness :
  length scratch = C.MAX_NAME_LEN ∧
  C.prompt_user_for_folder_name 2 scratch [] (replicate 300 "a") renamed_in
    = (Val (lit "new_name"), renamed_out (replicate 255 "a")) ∧
  length (lit "new_name") ≤ 255.
Proof.
  split; [reflexivity|].
  assert (Hrun : C.prompt_user_for_folder_name 2 scratch [] (replicate 300 "a") renamed_in
                 = (Val (lit "new_name"), renamed_out (replicate 255 "a")))
    by (vm_compute; reflexivity).
  split; [exact Hrun|].
  exact (proj2 (proj1 (proj2 (c_name_truncated_at_255 2 [] scratch scratch []
                                (replicate 300 "a") (lit "new_name") renamed_in
                                (renamed_out (replicate 255 "a")))) eq_refl) Hrun).
Defined.

(** C6, as stated, fails: on 256 letters [sanitize_folder_name] writes 255
    of them and [sanitizeFolderName] returns all 256. *)
Lemma sanitizers_differ_on_long_input :
  c_str <$> C.sanitize_folder_name (replicate 256 "a") scratch
    = Some (replicate 255 "a") ∧
  Cpp.sanitizeFolderName (replicate 256 "a") = replicate 256 "a" ∧
  c_str <$> C.sanitize_folder_name (replicate 256 "a") scratch
    ≠ Some (Cpp.sanitizeFolderName (replicate 256 "a")).
Proof. vm_compute. repeat split. discriminate. Qed.

(** C6 (amended).  On every input string the output of
    [sanitize_folder_name] is the first 255 characters of the output of
    [sanitizeFolderName]; the two outputs are equal when the input has at
    most 255 characters. *)
Theorem sanitizers_agree_up_to_255 (input output : list ascii) :
  length output = C.MAX_NAME_LEN →
  ∃ buf, C.sanitize_folder_name input output = Some buf ∧
    c_str buf = take 255 (Cpp.sanitizeFolderName (c_str input)) ∧
    (length (c_str input) ≤ 255 → c_str buf = Cpp.sanitizeFolderName (c_str input)).
Proof.
  intros Hlen.
  destruct (sanitize_folder_name_spec input output Hlen) as (buf & Hbuf & _ & Hs).
  exists buf. rewrite sanitizeFolderName_clean. repeat split; [done..|].
  intros Hshort. rewrite Hs. apply take_ge.
  unfold clean. rewrite length_map.
  etrans; [apply List.filter_length_le|done].
Qed.

Lemma sanitizers_agree_up_to_255_witness :
  length scratch = C.MAX_NAME_LEN ∧
  ∃ buf, C.sanitize_folder_name (lit "a:b c") scratch = Some buf ∧
    c_str buf = take 255 (Cpp.sanitizeFolderName (c_str (lit "a:b c"))) ∧
    (length (c_str (lit "a:b c")) ≤ 255 →
     c_str buf = Cpp.sanitizeFolderName (c_str (lit "a:b c"))).
Proof.
  split; [reflexivity|].
  exact (sanitizers_agree_up_to_255 (lit "a:b c") scratch eq_refl).
Defined.

(** C7.  For every raw name, when the first answer is [y] the loop
    returns the sanitised form of that name, having displayed it once,
    asked once and read one response: these three events are all the run
    adds to the trace, and the answer is all it takes from the input. *)
Theorem confirm_at_once (fuel : nat) (raw tempName response rest : list ascii)
    (w : world) :
  stdin w = "y" :: LF :: rest →
  (length tempName = C.MAX_NAME_LEN →
   ∃ buf, C.sanitize_folder_name raw tempName = Some buf ∧
     C.prompt_user_for_folder_name (S fuel) tempName response raw w =
       (Val (c_str buf),
        World (USERPROFILE w) rest (cin_good w) (files w)
          (trace w ++ [Out (display (c_str buf)); Out question; In ["y"; LF]])))
  ∧ (cin_good w = true →
     Cpp.promptForFolderName (S fuel) raw w =
       (Val (Cpp.sanitizeFolderName raw),
        World (USERPROFILE w) rest true (files w)
          (trace w ++ [Out (display (Cpp.sanitizeFolderName raw)); Out question;
                       In ["y"; LF]]))).
Proof.
  intros Hin. split.
  - intros Hlen. by apply C_prompt_yes.
  - intros Hgood. by apply Cpp_prompt_yes.
Qed.

Lemma confirm_at_once_witness :
  length scratch = C.MAX_NAME_LEN ∧
  stdin (demo_world ["y"; LF; "n"]) = "y" :: LF :: ["n"] ∧
  Cpp.promptForFolderName 1 (lit "my folder") (demo_world ["y"; LF; "n"]) =
    (Val (Cpp.sanitizeFolderName (lit "my folder")),
     World (Some (lit "/home/u")) ["n"] true ∅
       [Out (display (Cpp.sanitizeFolderName (lit "my folder"))); Out question;
        In ["y"; LF]]).
Proof.
  split; [reflexivity|]. split; [reflexivity|].
  exact (proj2 (confirm_at_once 0 (lit "my folder") scratch [] ["n"]
                  (demo_world ["y"; LF; "n"]) eq_refl) eq_refl).
Defined.

(** C10.  Whatever number of names is refused first, the name the loop
    returns is a fixed point of the sanitiser and holds no reserved and
    no control character. *)
Theorem confirmed_name_is_fixed_point (fuel : nat)
    (tempName response finalName output name : list ascii) (w w' : world) :
  (length tempName = C.MAX_NAME_LEN → length output = C.MAX_NAME_LEN →
   C.prompt_user_for_folder_name fuel tempName response finalName w = (Val name, w') →
   (∃ buf, C.sanitize_folder_name name output = Some buf ∧ c_str buf = name)
   ∧ Forall safe name)
  ∧ (Cpp.promptForFolderName fuel finalName w = (Val name, w') →
     Cpp.sanitizeFolderName name = name ∧ Forall safe name).
Proof.
  split.
  - intros Hlen Hlen' Hrun.
    destruct (C_prompt_returns _ _ _ _ _ _ _ Hlen Hrun) as (cand & out & buf & Ho & Hb & ->).
    split; [by eapply C_sanitize_fixed|].
    destruct (sanitize_folder_name_spec cand out Ho) as (b & Hb' & _ & Hs).
    rewrite Hb in Hb'. injection Hb' as <-. rewrite Hs.
    apply Forall_plain_safe, take_clean_plain.
  - intros Hrun. destruct (Cpp_prompt_returns _ _ _ _ _ Hrun) as (cand & ->).
    rewrite !sanitizeFolderName_clean. split.
    + apply clean_fixed, clean_plain.
    + apply Forall_plain_safe, clean_plain.
Qed.

Lemma confirmed_name_is_fixed_point_witness :
  length scratch = C.MAX_NAME_LEN ∧
  C.prompt_user_for_folder_name 2 scratch [] (lit "a?b") renamed_in
    = (Val (lit "new_name"), renamed_out (lit "ab")) ∧
  (∃ buf, C.sanitize_folder_name (lit "new_name") scratch = Some buf ∧
          c_str buf = lit "new_name") ∧
  Forall safe (lit "new_name").
Proof.
  split; [reflexivity|].
  assert (Hrun : C.prompt_user_for_folder_name 2 scratch [] (lit "a?b") renamed_in
                 = (Val (lit "new_name"), renamed_out (lit "ab")))
    by (vm_compute; reflexivity).
  split; [exact Hrun|].
  exact (proj1 (confirmed_name_is_fixed_point 2 scratch [] (lit "a?b") scratch
                  (lit "new_name") renamed_in (renamed_out (lit "ab")))
               eq_refl eq_refl Hrun).
Defined.

(** ** The resolver *)

Lemma C_get_config_path_home sys home w :
  USERPROFILE w = Some home →
  ∃ configPath,
    C.get_config_path sys C.MAX_PATH_LEN w = (Val (Some configPath), w) ∧
    c_str configPath = c_config_path home.
Proof.
  intros Henv. unfold C.get_config_path.
  run_with ltac:(unfold getenv_USERPROFILE, get; rewrite Henv; reflexivity).
  run. by eexists.
Qed.

Lemma C_get_config_path_home_u sys w :
  USERPROFILE w = Some home_u →
  C.get_config_path sys C.MAX_PATH_LEN w = (Val (Some c_config_txt), w).
Proof.
  intros Henv. unfold C.get_config_path.
  run_with ltac:(unfold getenv_USERPROFILE, get; rewrite Henv; reflexivity).
  run. vm_compute. reflexivity.
Qed.

Lemma C_config_first_run sys response rest w :
  USERPROFILE w = Some home_u →
  files w !! c_config_txt = None →
  stdin w = "y" :: LF :: rest →
  fopen_w_ok sys c_config_txt = true →
  C.read_or_create_config sys response C.MAX_PATH_LEN w =
    (Val (Some (lit "/home/u\Projects")),
     World (USERPROFILE w) rest (cin_good w)
       (<[c_config_txt := lit "/home/u\Projects" ++ [LF]]> (files w))
       (trace w ++ [Out (lit "Config file not found." ++ [LF]);
                    Out (lit "Suggested default base directory: /home/u\Projects" ++ [LF]);
                    Out (lit "Use this as your base directory? (y/n): ");
                    In ["y"; LF];
                    Out (lit "Saved base directory to config file." ++ [LF])])).
Proof.
  intros Henv Hfile Hin Hw. unfold C.read_or_create_config.
  run_with ltac:(by apply C_get_config_path_home_u).
  run_with ltac:(unfold fopen_r, get; change (c_str c_config_txt) with c_config_txt; rewrite Hfile; reflexivity).
  run_with ltac:(unfold getenv_USERPROFILE, get; rewrite Henv; reflexivity).
  run. run. run.
  run_with ltac:(by apply fgets_stdin_yes).
  change (Ascii.eqb (tolower (char_at (default response (Some ["y"; LF])) 0)) "y") with true.
  cbn [negb]. run.
  change (c_str c_config_txt) with c_config_txt. rewrite Hw. run. cbn [negb]. run. run.
  unfold ret, log, set_stdin, set_file. cbn [USERPROFILE stdin cin_good files trace].
  rewrite <- !app_assoc. reflexivity.
Qed.

Lemma cut_at_strcspn l reject :
  cut_at (strcspn l reject) l = before_any (NUL :: reject) l.
Proof.
  unfold cut_at. induction l as [|c l IH]; [done|].
  cbn [strcspn before_any existsb].
  destruct (Ascii.eqb c NUL || existsb (Ascii.eqb c) reject); [done|].
  cbn [take]. by rewrite IH.
Qed.

Lemma before_any_fgets_chars stops k s :
  existsb (Ascii.eqb LF) stops = true →
  before_any stops (fst (fgets_chars k s)) = before_any stops (take k s).
Proof.
  intros HLF. revert s. induction k as [|k IH]; intros [|c s]; try done.
  cbn [fgets_chars take].
  destruct (Ascii.eqb_spec c LF) as [->|Hc].
  - cbn [fst before_any]. by rewrite HLF.
  - specialize (IH s). destruct (fgets_chars k s) as [l r].
    cbn [fst before_any] in *. by rewrite IH.
Qed.

Lemma fgets_file_nonempty n content :
  content ≠ [] → ∃ l, fgets_file (S (S n)) content = Some l ∧ l = fst (fgets_chars (S n) content).
Proof.
  intros Hne. destruct content as [|c rest]; [done|].
  unfold fgets_file. replace (S (S n) - 1) with (S n) by lia.
  destruct (fgets_chars_head n c rest) as (l & r & ->).
  by eexists.
Qed.

Lemma getline_file_before content : getline_file content = before_any [LF] content.
Proof.
  unfold getline_file. induction content as [|c s IH]; [done|].
  cbn [split_line before_any existsb]. rewrite orb_false_r.
  destruct (Ascii.eqb c LF); [done|].
  destruct (split_line s) as [l r]. cbn [fst] in *. by rewrite IH.
Qed.

Lemma C_config_existing sys response configPath content w :
  C.get_config_path sys C.MAX_PATH_LEN w = (Val (Some configPath), w) →
  files w !! c_str configPath = Some content →
  C.read_or_create_config sys response C.MAX_PATH_LEN w =
    match content with
    | [] => (Val None, w)
    | _ => (Val (Some (before_any [NUL; CR; LF] (take 1023 content))), w)
    end.
Proof.
  intros Hpath Hfile. unfold C.read_or_create_config.
  run_with ltac:(exact Hpath).
  run_with ltac:(unfold fopen_r, get; rewrite Hfile; reflexivity).
  destruct content as [|c rest]; [reflexivity|].
  destruct (fgets_file_nonempty 1022 (c :: rest)) as (l & Hl & ->); [done|].
  change C.MAX_PATH_LEN with 1024. rewrite Hl. cbv beta iota.
  rewrite cut_at_strcspn, before_any_fgets_chars by reflexivity. reflexivity.
Qed.

Lemma Cpp_getConfigFilePath_home sys home made w :
  USERPROFILE w = Some home →
  create_directories sys (c_str home ++ Cpp.CONFIG_DIR) = Some made →
  Cpp.getConfigFilePath sys w =
    (Val (path_append sys (c_str home ++ Cpp.CONFIG_DIR) Cpp.CONFIG_FILE), w).
Proof.
  intros Henv Hmade. unfold Cpp.getConfigFilePath, Cpp.getUserProfile.
  erewrite run_bind; cycle 1.
  { run_with ltac:(unfold getenv_USERPROFILE, get; rewrite Henv; reflexivity).
    reflexivity. }
  cbv beta iota zeta. run_with ltac:(unfold call; rewrite Hmade; reflexivity).
  reflexivity.
Qed.

Lemma Cpp_config_existing sys configFile content w :
  Cpp.getConfigFilePath sys w = (Val configFile, w) →
  files w !! configFile = Some content →
  Cpp.readOrCreateBasePath sys w = (Val (before_any [LF] content), w).
Proof.
  intros Hpath Hfile. unfold Cpp.readOrCreateBasePath.
  run_with ltac:(exact Hpath).
  run_with ltac:(unfold get; rewrite Hfile; reflexivity).
  by rewrite getline_file_before.
Qed.

Lemma getUserProfile_home home w :
  USERPROFILE w = Some home → Cpp.getUserProfile w = (Val (c_str home), w).
Proof.
  intros Henv. unfold Cpp.getUserProfile.
  run_with ltac:(unfold getenv_USERPROFILE, get; rewrite Henv; reflexivity).
  reflexivity.
Qed.

Lemma Cpp_config_first_run sys made rest w :
  USERPROFILE w = Some home_u →
  create_directories sys (home_u ++ Cpp.CONFIG_DIR) = Some made →
  files w !! path_append sys (home_u ++ Cpp.CONFIG_DIR) Cpp.CONFIG_FILE = None →
  stdin w = "y" :: LF :: rest → cin_good w = true →
  fopen_w_ok sys (path_append sys (home_u ++ Cpp.CONFIG_DIR) Cpp.CONFIG_FILE) = true →
  Cpp.readOrCreateBasePath sys w =
    (Val (lit "/home/u\Projects"),
     World (USERPROFILE w) rest true
       (<[path_append sys (home_u ++ Cpp.CONFIG_DIR) Cpp.CONFIG_FILE
          := lit "/home/u\Projects" ++ [LF]]> (files w))
       (trace w ++ [Out (lit "Config file not found." ++ [LF]);
                    Out (lit "Suggested default base directory: /home/u\Projects" ++ [LF]);
                    Out (lit "Use this as your base directory? (y/n): ");
                    In ["y"; LF];
                    Out (lit "Saved base directory to config file." ++ [LF])])).
Proof.
  intros Henv Hmade Hfile Hin Hgood Hw. unfold Cpp.readOrCreateBasePath.
  run_with ltac:(by eapply (Cpp_getConfigFilePath_home sys home_u)).
  change (c_str home_u) with home_u.
  run_with ltac:(unfold get; rewrite Hfile; reflexivity).
  run_with ltac:(by apply getUserProfile_home).
  run. run. run.
  run_with ltac:(by apply getline_cin_yes).
  change (Ascii.eqb (tolower (char_at ["y"] 0)) "y") with true. cbv iota.
  run. rewrite Hw. run. run. run.
  unfold ret, log, set_stdin, set_file, fprintf_file.
  cbn [USERPROFILE stdin cin_good files trace].
  rewrite <- !app_assoc. reflexivity.
Qed.

(** C4, as stated, fails: the default is joined to the home directory
    with a backslash, so the file written holds [/home/u\Projects]. *)
Lemma default_is_joined_with_backslash :
  files (snd (C.read_or_create_config demo_sys [] C.MAX_PATH_LEN (demo_world ["y"; LF])))
    !! c_config_txt = Some (lit "/home/u\Projects" ++ [LF]) ∧
  files (snd (Cpp.readOrCreateBasePath demo_sys (demo_world ["y"; LF])))
    !! cpp_config_txt demo_sys = Some (lit "/home/u\Projects" ++ [LF]) ∧
  lit "/home/u\Projects" ++ [LF] ≠ lit "/home/u/Projects" ++ [LF].
Proof. vm_compute. repeat split. discriminate. Qed.

(** C4 (amended).  When no configuration file exists, the home directory
    is [/home/u] and the answer to the default prompt is [y], the resolver
    returns [/home/u\Projects] and writes a configuration file holding
    exactly that line and a new-line; a later run, in any world with this
    home directory and these files, returns [/home/u\Projects] again and
    neither reads nor writes anything else. *)
Theorem default_base_path_round_trip (sys : platform) (made : bool)
    (response response' rest : list ascii) (w : world) :
  USERPROFILE w = Some home_u →
  stdin w = "y" :: LF :: rest →
  (files w !! c_config_txt = None → fopen_w_ok sys c_config_txt = true →
   ∃ w1, C.read_or_create_config sys response C.MAX_PATH_LEN w
           = (Val (Some (lit "/home/u\Projects")), w1) ∧
     files w1 = <[c_config_txt := lit "/home/u\Projects" ++ [LF]]> (files w) ∧
     ∀ w2, USERPROFILE w2 = Some home_u → files w2 = files w1 →
       C.read_or_create_config sys response' C.MAX_PATH_LEN w2
         = (Val (Some (lit "/home/u\Projects")), w2))
  ∧ (cin_good w = true →
     create_directories sys (home_u ++ Cpp.CONFIG_DIR) = Some made →
     files w !! cpp_config_txt sys = None → fopen_w_ok sys (cpp_config_txt sys) = true →
     ∃ w1, Cpp.readOrCreateBasePath sys w = (Val (lit "/home/u\Projects"), w1) ∧
       files w1 = <[cpp_config_txt sys := lit "/home/u\Projects" ++ [LF]]> (files w) ∧
       ∀ w2, USERPROFILE w2 = Some home_u → files w2 = files w1 →
         Cpp.readOrCreateBasePath sys w2 = (Val (lit "/home/u\Projects"), w2)).
Proof.
  intros Henv Hin. split.
  - intros Hnone Hw.
    eexists. split; [by apply C_config_first_run|]. split; [reflexivity|].
    intros w2 Henv2 Hfiles.
    rewrite (C_config_existing sys response' c_config_txt
               (lit "/home/u\Projects" ++ [LF]) w2).
    + reflexivity.
    + by apply C_get_config_path_home_u.
    + change (c_str c_config_txt) with c_config_txt. rewrite Hfiles.
      cbn [files]. apply lookup_insert_eq.
  - intros Hgood Hmade Hnone Hw.
    eexists. split; [by eapply Cpp_config_first_run|]. split; [reflexivity|].
    intros w2 Henv2 Hfiles.
    rewrite (Cpp_config_existing sys (cpp_config_txt sys)
               (lit "/home/u\Projects" ++ [LF]) w2).
    + reflexivity.
    + by eapply (Cpp_getConfigFilePath_home sys home_u).
    + rewrite Hfiles. cbn [files]. apply lookup_insert_eq.
Qed.

Lemma default_base_path_round_trip_witness :
  USERPROFILE (demo_world ["y"; LF]) = Some home_u ∧
  files (demo_world ["y"; LF]) !! c_config_txt = None ∧
  ∃ w1, C.read_or_create_config demo_sys [] C.MAX_PATH_LEN (demo_world ["y"; LF])
          = (Val (Some (lit "/home/u\Projects")), w1) ∧
    files w1 = <[c_config_txt := lit "/home/u\Projects" ++ [LF]]>
                 (files (demo_world ["y"; LF])) ∧
    ∀ w2, USERPROFILE w2 = Some home_u → files w2 = files w1 →
      C.read_or_create_config demo_sys [] C.MAX_PATH_LEN w2
        = (Val (Some (lit "/home/u\Projects")), w2).
Proof.
  split; [reflexivity|]. split; [reflexivity|].
  exact (proj1 (default_base_path_round_trip demo_sys true [] [] []
                  (demo_world ["y"; LF]) eq_refl eq_refl) eq_refl eq_refl).
Defined.

(** C5, as stated, fails in [main.c]: on a configuration file that exists
    and is empty [fgets] returns null and [read_or_create_config] returns
    0, the failure value. *)
Lemma empty_config_file_fails_in_c :
  C.read_or_create_config demo_sys [] C.MAX_PATH_LEN (configured_world [])
    = (Val None, configured_world []).
Proof. vm_compute. reflexivity. Qed.

(** C5 (amended).  When the configuration file exists the resolver asks
    nothing and validates nothing.  [main.c] returns what stands before
    the first carriage return, new-line or null character among the first
    1023 characters of a file that is not empty, and fails on an empty
    file; [main.cpp] returns what stands before the first new-line of any
    file, the empty string for an empty one. *)
Theorem existing_config_is_passed_through (sys : platform)
    (response configPath content : list ascii) (w : world) :
  (C.get_config_path sys C.MAX_PATH_LEN w = (Val (Some configPath), w) →
   files w !! c_str configPath = Some content →
   (content ≠ [] →
      C.read_or_create_config sys response C.MAX_PATH_LEN w
        = (Val (Some (before_any [NUL; CR; LF] (take 1023 content))), w))
   ∧ (content = [] →
      C.read_or_create_config sys response C.MAX_PATH_LEN w = (Val None, w)))
  ∧ (Cpp.getConfigFilePath sys w = (Val configPath, w) →
     files w !! configPath = Some content →
     Cpp.readOrCreateBasePath sys w = (Val (before_any [LF] content), w)).
Proof.
  split.
  - intros Hpath Hfile. split.
    + intros Hne. rewrite (C_config_existing _ _ _ _ _ Hpath Hfile).
      by destruct content.
    + intros ->. by rewrite (C_config_existing _ _ _ _ _ Hpath Hfile).
  - intros Hpath Hfile. by eapply Cpp_config_existing.
Qed.

Lemma existing_config_is_passed_through_witness :
  files (configured_world (lit "C:\Users\me\Projects" ++ [LF])) !! c_config_txt
    = Some (lit "C:\Users\me\Projects" ++ [LF]) ∧
  C.read_or_create_config demo_sys [] C.MAX_PATH_LEN
      (configured_world (lit "C:\Users\me\Projects" ++ [LF]))
    = (Val (Some (lit "C:\Users\me\Projects")),
       configured_world (lit "C:\Users\me\Projects" ++ [LF])) ∧
  Cpp.readOrCreateBasePath demo_sys (configured_world (lit "C:\Users\me\Projects" ++ [LF]))
    = (Val (lit "C:\Users\me\Projects"),
       configured_world (lit "C:\Users\me\Projects" ++ [LF])).
Proof.
  split; [reflexivity|].
  pose proof (existing_config_is_passed_through demo_sys [] c_config_txt
                (lit "C:\Users\me\Projects" ++ [LF])
                (configured_world (lit "C:\Users\me\Projects" ++ [LF])))
    as [Hc Hcpp].
  split.
  - apply (Hc eq_refl eq_refl). discriminate.
  - exact (Hcpp eq_refl eq_refl).
Defined.

(** ** The yes/no prompts *)

Lemma C_config_prompt sys response home c rest w :
  USERPROFILE w = Some home →
  files w !! c_config_path home = None →
  stdin w = c :: rest →
  said ask_base w (snd (C.read_or_create_config sys response C.MAX_PATH_LEN w))
  ↔ ¬ (c = "y" ∨ c = "Y").
Proof.
  intros Henv Hfile Hin. rewrite <- tolower_y. unfold C.read_or_create_config.
  destruct (C_get_config_path_home sys home w Henv) as (configPath & Hpath & Hcp).
  run_with ltac:(exact Hpath).
  run_with ltac:(unfold fopen_r, get; rewrite Hcp, Hfile; reflexivity).
  run_with ltac:(unfold getenv_USERPROFILE, get; rewrite Henv; reflexivity).
  run. run. run. name_world w1 Ht Hs Hg. rewrite Hin in Hs.
  destruct (fgets_stdin_cons 8 c rest w1 Hs) as (l & r & Hread).
  run_with ltac:(exact Hread).
  change (char_at (default response (Some (c :: l))) 0) with c.
  destruct (Ascii.eqb (tolower c) "y") eqn:Hy; cbn [negb]; cbv iota.
  - run. destruct (fopen_w_ok sys (c_str configPath)); run; cbn [negb]; cbv iota.
    + run. run. unfold ret. cbn [snd].
      rewrite said_app; [|unfold log, set_stdin, set_file; cbn [trace];
                           rewrite Ht, <- !app_assoc; reflexivity].
      split; [|done]. intros Hsaid. not_said Hsaid.
    + run. unfold ret. cbn [snd].
      rewrite said_app; [|unfold log, set_stdin, set_file; cbn [trace];
                           rewrite Ht, <- !app_assoc; reflexivity].
      split; [|done]. intros Hsaid. not_said Hsaid.
  - name_world w2 Ht2 Hs2 Hg2.
    destruct (fgets_stdin_Val C.MAX_PATH_LEN (log (Out (lit "Enter your preferred base directory: ")) w2))
      as (r0 & w3 & Hr).
    pose proof (fgets_stdin_trace _ _ _ _ Hr) as Ht3. cbn [log trace] in Ht3.
    run_with ltac:(run; run_with ltac:(exact Hr); reflexivity).
    destruct (fopen_w_ok sys (c_str configPath)); run; cbn [negb]; cbv iota.
    + run. run. unfold ret. cbn [snd].
      rewrite said_app; [|unfold log, set_stdin, set_file; cbn [trace];
                           rewrite Ht3, Ht2, Ht, <- !app_assoc; reflexivity].
      split; [done|]. intros _. set_solver.
    + run. unfold ret. cbn [snd].
      rewrite said_app; [|unfold log, set_stdin, set_file; cbn [trace];
                           rewrite Ht3, Ht2, Ht, <- !app_assoc; reflexivity].
      split; [done|]. intros _. set_solver.
Qed.

Lemma C_name_prompt tempName response finalName c rest w :
  length tempName = C.MAX_NAME_LEN →
  stdin w = c :: rest →
  ((∃ name, fst (C.prompt_user_for_folder_name 1 tempName response finalName w) = Val name)
   ↔ (c = "y" ∨ c = "Y"))
  ∧ (said ask_name w (snd (C.prompt_user_for_folder_name 1 tempName response finalName w))
     ↔ ¬ (c = "y" ∨ c = "Y")).
Proof.
  intros Hlen Hin. rewrite <- tolower_y.
  destruct (sanitize_folder_name_spec finalName tempName Hlen) as (buf & Hbuf & _ & _).
  cbn [C.prompt_user_for_folder_name]. rewrite Hbuf.
  run. run. name_world w1 Ht Hs Hg. rewrite Hin in Hs.
  destruct (fgets_stdin_cons 8 c rest w1 Hs) as (l & r & Hread).
  run_with ltac:(exact Hread).
  change (char_at (default response (Some (c :: l))) 0) with c.
  destruct (Ascii.eqb (tolower c) "y") eqn:Hy; cbv iota.
  - unfold ret. cbn [fst snd]. split; [split; [done|by eexists]|].
    rewrite said_app; [|unfold log, set_stdin; cbn [trace];
                         rewrite Ht, <- !app_assoc; reflexivity].
    split; [|done]. intros Hsaid. not_said Hsaid.
  - name_world w2 Ht2 Hs2 Hg2.
    destruct (fgets_stdin_Val C.MAX_NAME_LEN (log (Out (lit "Enter a new folder name: ")) w2))
      as (r0 & w3 & Hr).
    pose proof (fgets_stdin_trace _ _ _ _ Hr) as Ht3. cbn [log trace] in Ht3.
    run. run_with ltac:(exact Hr). unfold out_of_fuel. cbn [fst snd].
    split; [split; [intros [? ?]|]; done|].
    rewrite said_app; [|rewrite Ht3, Ht2, Ht, <- !app_assoc; reflexivity].
    split; [done|]. intros _. set_solver.
Qed.

Lemma getline_cin_cons str c rest w :
  stdin w = c :: rest → cin_good w = true →
  ∃ l w1 read, getline_cin str w = (Val l, w1) ∧
    Ascii.eqb (tolower (char_at l 0)) "y" = Ascii.eqb (tolower c) "y" ∧
    trace w1 = trace w ++ [In read].
Proof.
  intros Hin Hgood. unfold getline_cin. rewrite Hgood, Hin. cbn [split_line].
  destruct (Ascii.eqb_spec c LF) as [->|Hc].
  - eexists _, _, _. split; [reflexivity|]. split; reflexivity.
  - destruct (split_line rest) as [l [r|]]; eexists _, _, _;
      (split; [reflexivity|]); split; reflexivity.
Qed.

Lemma getline_cin_trace str w l w1 :
  getline_cin str w = (Val l, w1) →
  ∃ events, trace w1 = trace w ++ events ∧ ∀ msg, Out msg ∉ events.
Proof.
  unfold getline_cin. destruct (cin_good w).
  - destruct (split_line (stdin w)) as [l' [r|]]; intros H; injection H as <- <-;
      (eexists [_]; split; [reflexivity|]); intros msg Hm;
      apply list_elem_of_singleton in Hm; discriminate.
  - intros H; injection H as <- <-. exists []. split; [by rewrite app_nil_r|].
    intros msg Hm. by apply elem_of_nil in Hm.
Qed.

Lemma Cpp_name_prompt name0 c rest w :
  stdin w = c :: rest → cin_good w = true →
  ((∃ name, fst (Cpp.promptForFolderName 1 name0 w) = Val name) ↔ (c = "y" ∨ c = "Y"))
  ∧ (said ask_name w (snd (Cpp.promptForFolderName 1 name0 w)) ↔ ¬ (c = "y" ∨ c = "Y")).
Proof.
  intros Hin Hgood. rewrite <- tolower_y. cbn [Cpp.promptForFolderName].
  run. run. name_world w1 Ht Hs Hg. rewrite Hin in Hs. rewrite Hgood in Hg.
  destruct (getline_cin_cons [] c rest w1 Hs Hg) as (l & w2 & read & Hread & Hy & Ht2).
  run_with ltac:(exact Hread). rewrite Hy.
  destruct (Ascii.eqb (tolower c) "y"); cbv iota.
  - unfold ret. cbn [fst snd]. split; [split; [done|by eexists]|].
    rewrite said_app; [|rewrite Ht2, Ht, <- !app_assoc; reflexivity].
    split; [|done]. intros Hsaid. not_said Hsaid.
  - destruct (getline_cin_Val name0 (log (Out (lit "Enter a new folder name: ")) w2))
      as (name1 & w3 & Hr).
    destruct (getline_cin_trace _ _ _ _ Hr) as (events & Ht3 & _). cbn [log trace] in Ht3.
    run. run_with ltac:(exact Hr). unfold out_of_fuel. cbn [fst snd].
    split; [split; [intros [? ?]|]; done|].
    rewrite said_app; [|rewrite Ht3, Ht2, Ht, <- !app_assoc; reflexivity].
    split; [done|]. intros _. set_solver.
Qed.

Lemma Cpp_config_prompt sys made home c rest w :
  USERPROFILE w = Some home →
  create_directories sys (c_str home ++ Cpp.CONFIG_DIR) = Some made →
  files w !! cpp_config_path sys home = None →
  stdin w = c :: rest → cin_good w = true →
  said ask_base w (snd (Cpp.readOrCreateBasePath sys w)) ↔ ¬ (c = "y" ∨ c = "Y").
Proof.
  intros Henv Hmade Hfile Hin Hgood. rewrite <- tolower_y.
  unfold Cpp.readOrCreateBasePath.
  run_with ltac:(by eapply (Cpp_getConfigFilePath_home sys home)).
  fold (cpp_config_path sys home).
  run_with ltac:(unfold get; rewrite Hfile; reflexivity).
  run_with ltac:(by apply getUserProfile_home).
  run. run. run. name_world w1 Ht Hs Hg. rewrite Hin in Hs. rewrite Hgood in Hg.
  destruct (getline_cin_cons [] c rest w1 Hs Hg) as (l & w2 & read & Hread & Hy & Ht2).
  run_with ltac:(exact Hread). rewrite Hy.
  destruct (Ascii.eqb (tolower c) "y"); cbv iota.
  - run. run. destruct (fopen_w_ok sys (cpp_config_path sys home)); run; run; unfold ret; cbn [snd].
    + rewrite said_app; [|unfold log, set_file; cbn [trace];
                           rewrite Ht2, Ht, <- !app_assoc; reflexivity].
      split; [|done]. intros Hsaid. not_said Hsaid.
    + rewrite said_app; [|unfold log; cbn [trace];
                           rewrite Ht2, Ht, <- !app_assoc; reflexivity].
      split; [|done]. intros Hsaid. not_said Hsaid.
  - destruct (getline_cin_Val [] (log (Out (lit "Enter your preferred base directory: ")) w2))
      as (base & w3 & Hr).
    destruct (getline_cin_trace _ _ _ _ Hr) as (events & Ht3 & _). cbn [log trace] in Ht3.
    run_with ltac:(run; exact Hr).
    run. destruct (fopen_w_ok sys (cpp_config_path sys home)); run; run; unfold ret; cbn [snd].
    + rewrite said_app; [|unfold log, set_file; cbn [trace];
                           rewrite Ht3, Ht2, Ht, <- !app_assoc; reflexivity].
      split; [done|]. intros _. set_solver.
    + rewrite said_app; [|unfold log; cbn [trace];
                           rewrite Ht3, Ht2, Ht, <- !app_assoc; reflexivity].
      split; [done|]. intros _. set_solver.
Qed.

(** X19.  At each of the four yes/no prompts, of the name and of the
    default base directory in either program, a response that was read
    from the input is affirmative when it starts with [y] or [Y] and
    negative otherwise, an empty line included: with fuel for one round
    the confirmation loop returns a name exactly on such a response, and
    the request for a new name or for another base directory is printed
    exactly on any other.  What happens when there is nothing to read is
    the matter of C8 below. *)
Theorem only_y_is_affirmative (sys : platform) (made : bool) (c : ascii)
    (rest tempName response finalName home : list ascii) (w : world) :
  stdin w = c :: rest →
  (length tempName = C.MAX_NAME_LEN →
   ((∃ name,
       fst (C.prompt_user_for_folder_name 1 tempName response finalName w) = Val name)
    ↔ (c = "y" ∨ c = "Y"))
   ∧ (said ask_name w
           (snd (C.prompt_user_for_folder_name 1 tempName response finalName w))
      ↔ ¬ (c = "y" ∨ c = "Y")))
  ∧ (USERPROFILE w = Some home → files w !! c_config_path home = None →
     said ask_base w (snd (C.read_or_create_config sys response C.MAX_PATH_LEN w))
     ↔ ¬ (c = "y" ∨ c = "Y"))
  ∧ (cin_good w = true →
     ((∃ name, fst (Cpp.promptForFolderName 1 finalName w) = Val name)
      ↔ (c = "y" ∨ c = "Y"))
     ∧ (said ask_name w (snd (Cpp.promptForFolderName 1 finalName w))
        ↔ ¬ (c = "y" ∨ c = "Y")))
  ∧ (cin_good w = true → USERPROFILE w = Some home →
     create_directories sys (c_str home ++ Cpp.CONFIG_DIR) = Some made →
     files w !! cpp_config_path sys home = None →
     said ask_base w (snd (Cpp.readOrCreateBasePath sys w)) ↔ ¬ (c = "y" ∨ c = "Y")).
Proof.
  intros Hin. repeat apply conj.
  - intros Hlen. by apply (C_name_prompt tempName response finalName c rest w).
  - intros Henv Hnone. by apply (C_config_prompt sys response home c rest w).
  - intros Hgood. by apply (Cpp_name_prompt finalName c rest w).
  - intros Hgood Henv Hmade Hnone. by apply (Cpp_config_prompt sys made home c rest w).
Qed.

Lemma only_y_is_affirmative_witness :
  stdin (demo_world [LF; "y"; LF]) = LF :: ["y"; LF] ∧
  length scratch = C.MAX_NAME_LEN ∧
  ¬ (∃ name, fst (C.prompt_user_for_folder_name 1 scratch [] (lit "a b")
                    (demo_world [LF; "y"; LF])) = Val name) ∧
  said ask_base (demo_world [LF; "y"; LF])
       (snd (Cpp.readOrCreateBasePath demo_sys (demo_world [LF; "y"; LF]))).
Proof.
  split; [reflexivity|]. split; [reflexivity|].
  pose proof (only_y_is_affirmative demo_sys true LF ["y"; LF] scratch [] (lit "a b")
                home_u (demo_world [LF; "y"; LF]) eq_refl) as (H1 & _ & _ & H4).
  assert (Hno : ¬ (LF = "y" ∨ LF = "Y")) by (intros [H|H]; discriminate).
  split.
  - intros Hyes. apply Hno, (proj1 (H1 eq_refl)), Hyes.
  - apply (H4 eq_refl eq_refl eq_refl eq_refl), Hno.
Defined.

(** ** The end of [main] *)

Lemma run_fst {A} (m : IO A) w a : fst (m w) = Val a → m w = (Val a, snd (m w)).
Proof. destruct (m w) as [r w']. cbn. by intros ->. Qed.








(** ** At the end of the input *)

(** When nothing is left to read, [main.cpp] takes the answer to be
    negative. *)
Remark cpp_no_input_is_negative name0 w :
  stdin w = [] → ¬ ∃ name, fst (Cpp.promptForFolderName 1 name0 w) = Val name.
Proof.
  intros Hin [name Hrun]. revert Hrun. cbn [Cpp.promptForFolderName].
  run. run. name_world w1 Ht Hs Hg. rewrite Hin in Hs.
  assert (Hread : ∃ w2, getline_cin [] w1 = (Val [], w2)).
  { unfold getline_cin. rewrite Hs. destruct (cin_good w1); by eexists. }
  destruct Hread as (w2 & Hread). run_with ltac:(exact Hread).
  change (Ascii.eqb (tolower (char_at [] 0)) "y") with false. cbv iota.
  destruct (getline_cin_Val name0 (log (Out (lit "Enter a new folder name: ")) w2))
    as (name1 & w3 & Hr).
  run. run_with ltac:(exact Hr). discriminate.
Qed.

(** When nothing is left to read, [fgets] leaves the array [response] of
    [main.c] as it was, and the answer is what the array held before. *)
Remark c_no_input_keeps_response tempName response finalName w :
  length tempName = C.MAX_NAME_LEN → stdin w = [] →
  (∃ name, fst (C.prompt_user_for_folder_name 1 tempName response finalName w) = Val name)
  ↔ (char_at response 0 = "y" ∨ char_at response 0 = "Y").
Proof.
  intros Hlen Hin. rewrite <- tolower_y.
  destruct (sanitize_folder_name_spec finalName tempName Hlen) as (buf & Hbuf & _ & _).
  cbn [C.prompt_user_for_folder_name]. rewrite Hbuf.
  run. run. name_world w1 Ht Hs Hg. rewrite Hin in Hs.
  assert (Hread : fgets_stdin 10 w1 = (Val None, log (In []) w1)).
  { unfold fgets_stdin. by rewrite Hs. }
  run_with ltac:(exact Hread). change (default response None) with response.
  destruct (Ascii.eqb (tolower (char_at response 0)) "y"); cbv iota.
  - unfold ret. cbn [fst]. split; [done|by eexists].
  - destruct (fgets_stdin_Val C.MAX_NAME_LEN
                (log (Out (lit "Enter a new folder name: ")) (log (In []) w1)))
      as (r0 & w3 & Hr).
    run. run_with ltac:(exact Hr). unfold out_of_fuel. cbn [fst].
    split; [intros [? ?]|]; done.
Qed.

(** C8.  In the one case the claim names beside the responses, no input,
    [main.c] does not do what it says.  The result of neither [fgets] of a
    response is tested and the array [response] is never initialised, so at
    the end of the input the answer is what the array happens to hold.
    With a [y] there the loop confirms the name, and the resolver takes the
    default and stores it, without a word having been answered; in a whole
    run the [y] that confirmed the name, left behind in the array, is enough.
    [main.cpp], whose response is a fresh string, takes the missing answer
    for a refusal and asks on. *)
Theorem no_input_is_taken_for_yes_in_c :
  fst (C.prompt_user_for_folder_name 1 scratch (lit "y") (lit "a b") (demo_world []))
    = Val (lit "a_b")
  ∧ fst (C.read_or_create_config demo_sys (lit "y") C.MAX_PATH_LEN (demo_world []))
    = Val (Some (lit "/home/u\Projects"))
  ∧ files (snd (C.read_or_create_config demo_sys (lit "y") C.MAX_PATH_LEN (demo_world [])))
      !! c_config_txt = Some (lit "/home/u\Projects" ++ [LF])
  ∧ ¬ said ask_base (demo_world [])
        (snd (C.read_or_create_config demo_sys (lit "y") C.MAX_PATH_LEN (demo_world [])))
  ∧ fst (C.main demo_sys 1 scratch [] ["y"; LF] demo_argv (demo_world ["y"; LF]))
    = Val EXIT_SUCCESS
  ∧ files (snd (C.main demo_sys 1 scratch [] ["y"; LF] demo_argv (demo_world ["y"; LF])))
      !! c_config_txt = Some (lit "/home/u\Projects" ++ [LF])
  ∧ fst (Cpp.promptForFolderName 1 (lit "a b") (demo_world [])) = Fuel
  ∧ said ask_name (demo_world [])
      (snd (Cpp.promptForFolderName 1 (lit "a b") (demo_world [])))
  ∧ said ask_base (demo_world [])
      (snd (Cpp.readOrCreateBasePath demo_sys (demo_world []))).
Proof.
  repeat apply conj; try (vm_compute; reflexivity).
  - unfold said. intros H. vm_compute in H. not_said H.
  - unfold said. vm_compute. repeat constructor.
  - unfold said. vm_compute. repeat constructor.
Qed.

(** ** Any number of refusals

    Given the fuel for them, the loops do return after every number of
    rounds: here after [S k] refusals, each followed by the same new name,
    and a [y]. *)

Lemma C_prompt_refused fuel tempName response finalName rest w :
  length tempName = C.MAX_NAME_LEN →
  stdin w = refusal ++ rest →
  ∃ tempName' w',
    length tempName' = C.MAX_NAME_LEN ∧ stdin w' = rest ∧
    C.prompt_user_for_folder_name (S fuel) tempName response finalName w =
    C.prompt_user_for_folder_name fuel tempName' ["n"; LF] (lit "new name") w'.
Proof.
  intros Hlen Hin.
  destruct (sanitize_folder_name_spec finalName tempName Hlen) as (buf & Hbuf & Hlb & _).
  cbn [C.prompt_user_for_folder_name]. rewrite Hbuf.
  run. run. name_world w1 Ht Hs Hg. rewrite Hin in Hs.
  run_with ltac:(unfold fgets_stdin; rewrite Hs; reflexivity).
  change (Ascii.eqb (tolower (char_at (default response (Some ["n"; LF])) 0)) "y")
    with false. cbv iota.
  run. name_world w2 Ht2 Hs2 Hg2.
  run_with ltac:(unfold fgets_stdin; rewrite Hs2; reflexivity).
  eexists buf, _. split; [done|]. split; [|reflexivity]. reflexivity.
Qed.

Lemma Cpp_prompt_refused fuel name rest w :
  stdin w = refusal ++ rest → cin_good w = true →
  ∃ w', stdin w' = rest ∧ cin_good w' = true ∧
    Cpp.promptForFolderName (S fuel) name w =
    Cpp.promptForFolderName fuel (lit "new name") w'.
Proof.
  intros Hin Hgood. cbn [Cpp.promptForFolderName].
  run. run. name_world w1 Ht Hs Hg. rewrite Hin in Hs. rewrite Hgood in Hg.
  run_with ltac:(unfold getline_cin; rewrite Hg, Hs; reflexivity).
  change (Ascii.eqb (tolower (char_at ["n"] 0)) "y") with false. cbv iota.
  run. name_world w2 Ht2 Hs2 Hg2.
  run_with ltac:(unfold getline_cin; rewrite Hg2, Hs2; reflexivity).
  eexists. split; [|split]; [| |reflexivity]; reflexivity.
Qed.

Lemma C_prompt_after_refusals k tempName response finalName rest w :
  length tempName = C.MAX_NAME_LEN →
  stdin w = refusals (S k) ++ "y" :: LF :: rest →
  fst (C.prompt_user_for_folder_name (S (S k)) tempName response finalName w)
    = Val (lit "new_name").
Proof.
  revert tempName response finalName w.
  induction k as [|k IH]; intros tempName response finalName w Hlen Hin;
    unfold refusals in Hin; cbn [replicate concat] in Hin;
    rewrite <- app_assoc in Hin.
  - destruct (C_prompt_refused 1 tempName response finalName _ w Hlen Hin)
      as (t' & w' & Hlen' & Hin' & ->).
    destruct (C_prompt_yes 0 (lit "new name") t' ["n"; LF] rest w' Hlen' Hin')
      as (buf & Hbuf & ->).
    cbn [fst]. f_equal.
    destruct (sanitize_folder_name_spec (lit "new name") t' Hlen') as (b & Hb & _ & Hs).
    rewrite Hbuf in Hb. injection Hb as <-. rewrite Hs. reflexivity.
  - destruct (C_prompt_refused (S (S k)) tempName response finalName _ w Hlen Hin)
      as (t' & w' & Hlen' & Hin' & ->).
    by apply IH.
Qed.

Lemma Cpp_prompt_after_refusals k name rest w :
  stdin w = refusals (S k) ++ "y" :: LF :: rest → cin_good w = true →
  fst (Cpp.promptForFolderName (S (S k)) name w) = Val (lit "new_name").
Proof.
  revert name w.
  induction k as [|k IH]; intros name w Hin Hgood;
    unfold refusals in Hin; cbn [replicate concat] in Hin;
    rewrite <- app_assoc in Hin.
  - destruct (Cpp_prompt_refused 1 name _ w Hin Hgood) as (w' & Hin' & Hgood' & ->).
    by rewrite (Cpp_prompt_yes 0 (lit "new name") rest w' Hin' Hgood').
  - destruct (Cpp_prompt_refused (S (S k)) name _ w Hin Hgood)
      as (w' & Hin' & Hgood' & ->).
    by apply IH.
Qed.

(** * Further properties of the two programs *)

(** ** More on the sanitisers *)

Lemma plain_not_space c : plain c = true → isspace c = false.
Proof. each_char c; vm_compute; first [reflexivity | discriminate]. Qed.

Lemma clean_length s : length (clean s) ≤ length s.
Proof. unfold clean. rewrite length_map. apply List.filter_length_le. Qed.

Lemma clean_nil_iff s : clean s = [] ↔ Forall (λ c, kept c = false) s.
Proof.
  induction s as [|c s IH]; [by split|].
  rewrite clean_cons. destruct (kept c) eqn:Hk.
  - split; [done|]. intros H. apply Forall_cons in H as [H _]. congruence.
  - rewrite IH. split; [by constructor|]. intros H. by apply Forall_cons in H as [_ H].
Qed.

Lemma take_nil_iff {A} n (l : list A) : 0 < n → take n l = [] ↔ l = [].
Proof. intros Hn. destruct n; [lia|]. by destruct l. Qed.

(** X1.  Neither sanitiser makes a name longer, and no white-space
    character of any kind is left in its output. *)
Theorem sanitized_is_no_longer_and_has_no_space (input output : list ascii) :
  (length output = C.MAX_NAME_LEN →
   ∃ buf, C.sanitize_folder_name input output = Some buf ∧
     length (c_str buf) ≤ length (c_str input) ∧
     Forall (λ c, isspace c = false) (c_str buf))
  ∧ length (Cpp.sanitizeFolderName input) ≤ length input
  ∧ Forall (λ c, isspace c = false) (Cpp.sanitizeFolderName input).
Proof.
  repeat apply conj.
  - intros Hlen.
    destruct (sanitize_folder_name_spec input output Hlen) as (buf & Hbuf & _ & Hs).
    exists buf. rewrite Hs. repeat split; [done| |].
    + rewrite length_take. pose proof (clean_length (c_str input)). lia.
    + eapply Forall_impl; [apply take_clean_plain|]. apply plain_not_space.
  - rewrite sanitizeFolderName_clean. apply clean_length.
  - rewrite sanitizeFolderName_clean.
    eapply Forall_impl; [apply clean_plain|]. apply plain_not_space.
Qed.

Lemma sanitized_is_no_longer_and_has_no_space_witness :
  length scratch = C.MAX_NAME_LEN ∧
  ∃ buf, C.sanitize_folder_name (lit "a b<c") scratch = Some buf ∧
     length (c_str buf) ≤ length (c_str (lit "a b<c")) ∧
     Forall (λ c, isspace c = false) (c_str buf).
Proof.
  split; [reflexivity|].
  exact (proj1 (sanitized_is_no_longer_and_has_no_space (lit "a b<c") scratch) eq_refl).
Defined.

(** X2.  [sanitizeFolderName] works character by character: the sanitised
    form of two strings put together is their sanitised forms put
    together. *)
Theorem sanitizeFolderName_app (s t : list ascii) :
  Cpp.sanitizeFolderName (s ++ t) = Cpp.sanitizeFolderName s ++ Cpp.sanitizeFolderName t.
Proof. rewrite !sanitizeFolderName_clean. apply clean_app. Qed.

(** X3.  A name comes back unchanged exactly when it holds no reserved
    character, no control character and no space and, in [main.c], has at
    most 255 characters. *)
Theorem unchanged_iff_plain (input output : list ascii) :
  (length output = C.MAX_NAME_LEN →
   ∃ buf, C.sanitize_folder_name input output = Some buf ∧
     (c_str buf = c_str input
      ↔ Forall (λ c, plain c = true) (c_str input) ∧ length (c_str input) ≤ 255))
  ∧ (Cpp.sanitizeFolderName input = input ↔ Forall (λ c, plain c = true) input).
Proof.
  split.
  - intros Hlen.
    destruct (sanitize_folder_name_spec input output Hlen) as (buf & Hbuf & _ & Hs).
    exists buf. split; [done|]. rewrite Hs. split.
    + intros Heq. split.
      * rewrite <- Heq. apply take_clean_plain.
      * rewrite <- Heq at 1. apply take_all_clean.
    + intros [Hplain Hshort]. rewrite clean_fixed by done. by apply take_ge.
  - rewrite sanitizeFolderName_clean. split.
    + intros Heq. rewrite <- Heq. apply clean_plain.
    + apply clean_fixed.
Qed.

Lemma unchanged_iff_plain_witness :
  length scratch = C.MAX_NAME_LEN ∧
  ∃ buf, C.sanitize_folder_name (lit "my_folder") scratch = Some buf ∧
     (c_str buf = c_str (lit "my_folder")
      ↔ Forall (λ c, plain c = true) (c_str (lit "my_folder"))
        ∧ length (c_str (lit "my_folder")) ≤ 255).
Proof.
  split; [reflexivity|].
  exact (proj1 (unchanged_iff_plain (lit "my_folder") scratch) eq_refl).
Defined.

(** X4.  The sanitised name is empty exactly when no character of the
    input is kept, and the confirmation loop does not refuse an empty
    name: answered [y], it returns it. *)
Theorem empty_name_iff_nothing_kept (fuel : nat)
    (input output response rest : list ascii) (w : world) :
  (length output = C.MAX_NAME_LEN →
   ∃ buf, C.sanitize_folder_name input output = Some buf ∧
     (c_str buf = [] ↔ Forall (λ c, kept c = false) (c_str input)) ∧
     (Forall (λ c, kept c = false) (c_str input) → stdin w = "y" :: LF :: rest →
      fst (C.prompt_user_for_folder_name (S fuel) output response input w) = Val []))
  ∧ (Cpp.sanitizeFolderName input = [] ↔ Forall (λ c, kept c = false) input)
  ∧ (Forall (λ c, kept c = false) input →
     stdin w = "y" :: LF :: rest → cin_good w = true →
     fst (Cpp.promptForFolderName (S fuel) input w) = Val []).
Proof.
  split; [|split].
  - intros Hlen.
    destruct (sanitize_folder_name_spec input output Hlen) as (buf & Hbuf & _ & Hs).
    exists buf. split; [done|].
    assert (Hiff : c_str buf = [] ↔ Forall (λ c, kept c = false) (c_str input)).
    { rewrite Hs, take_nil_iff by lia. apply clean_nil_iff. }
    split; [done|]. intros Hnone Hin.
    destruct (C_prompt_yes fuel input output response rest w Hlen Hin) as (b & Hb & ->).
    rewrite Hbuf in Hb. injection Hb as <-. cbn [fst]. f_equal. by apply Hiff.
  - rewrite sanitizeFolderName_clean. apply clean_nil_iff.
  - intros Hnone Hin Hgood. rewrite (Cpp_prompt_yes fuel input rest w Hin Hgood).
    cbn [fst]. f_equal. rewrite sanitizeFolderName_clean. by apply clean_nil_iff.
Qed.

Lemma empty_name_iff_nothing_kept_witness :
  length scratch = C.MAX_NAME_LEN ∧
  Forall (λ c, kept c = false) (c_str (lit "<?>")) ∧
  fst (C.prompt_user_for_folder_name 1 scratch [] (lit "<?>") (demo_world ["y"; LF]))
    = Val [].
Proof.
  split; [reflexivity|].
  destruct (proj1 (empty_name_iff_nothing_kept 0 (lit "<?>") scratch [] []
                     (demo_world ["y"; LF])) eq_refl) as (buf & _ & Hiff & Hrun).
  assert (Hnone : Forall (λ c, kept c = false) (c_str (lit "<?>")))
    by (repeat constructor).
  split; [exact Hnone | exact (Hrun Hnone eq_refl)].
Defined.

(** ** The output array *)

Lemma drop_S_insert_0 (l : list ascii) n x :
  n < length l → <[0 := x]> (drop n l) = x :: drop (S n) l.
Proof.
  revert n. induction l as [|a l IH]; intros n Hn; [simpl in Hn; lia|].
  destruct n; [done|]. cbn [drop]. apply IH. simpl in Hn. lia.
Qed.

Lemma drop_past_middle (l r : list ascii) x : drop (S (length l)) (l ++ x :: r) = r.
Proof. induction l as [|a l IH]; [done|]. exact IH. Qed.

Lemma sanitize_folder_name_layout input output :
  length output = C.MAX_NAME_LEN →
  C.sanitize_folder_name input output =
    Some (take 255 (clean (c_str input)) ++ NUL
          :: drop (S (length (take 255 (clean (c_str input))))) output).
Proof.
  intros Hlen. change C.MAX_NAME_LEN with 256 in *.
  unfold C.sanitize_folder_name.
  rewrite sanitize_loop_walk, drop_0 by lia.
  rewrite walk_from_start by lia. cbn [mbind option_bind].
  set (w := take 255 (clean (c_str input))).
  assert (Hw : length w ≤ 255) by apply take_all_clean.
  f_equal. rewrite insert_app_r_alt by lia. rewrite Nat.sub_diag.
  rewrite (drop_S_insert_0 output (length w)); [done|lia].
Qed.

(** X5.  [sanitize_folder_name] stays inside its array of [MAX_NAME_LEN]
    bytes: it writes the name and the terminator after it, and every
    byte behind the terminator keeps what it held; the name written does
    not depend on what the array held before. *)
Theorem output_array_is_written_up_to_the_terminator (input output output' : list ascii) :
  length output = C.MAX_NAME_LEN → length output' = C.MAX_NAME_LEN →
  ∃ buf buf',
    C.sanitize_folder_name input output = Some buf ∧
    C.sanitize_folder_name input output' = Some buf' ∧
    length buf = C.MAX_NAME_LEN ∧
    buf !! length (c_str buf) = Some NUL ∧
    drop (S (length (c_str buf))) buf = drop (S (length (c_str buf))) output ∧
    c_str buf' = c_str buf.
Proof.
  intros Hlen Hlen'.
  destruct (sanitize_folder_name_spec input output Hlen) as (buf & Hbuf & Hlb & Hs).
  destruct (sanitize_folder_name_spec input output' Hlen') as (buf' & Hbuf' & _ & Hs').
  exists buf, buf'. repeat split; [done..| | |congruence].
  - pose proof (sanitize_folder_name_layout input output Hlen) as Hlay.
    rewrite Hbuf in Hlay. injection Hlay as Hlay. rewrite Hs.
    rewrite Hlay at 1. by apply list_lookup_middle.
  - pose proof (sanitize_folder_name_layout input output Hlen) as Hlay.
    rewrite Hbuf in Hlay. injection Hlay as Hlay. rewrite Hs.
    rewrite Hlay at 1. apply drop_past_middle.
Qed.

Lemma output_array_is_written_up_to_the_terminator_witness :
  length scratch = C.MAX_NAME_LEN ∧
  ∃ buf buf',
    C.sanitize_folder_name (lit "a b") scratch = Some buf ∧
    C.sanitize_folder_name (lit "a b") (replicate 256 "z") = Some buf' ∧
    length buf = C.MAX_NAME_LEN ∧
    buf !! length (c_str buf) = Some NUL ∧
    drop (S (length (c_str buf))) buf = drop (S (length (c_str buf))) scratch ∧
    c_str buf' = c_str buf.
Proof.
  split; [reflexivity|].
  exact (output_array_is_written_up_to_the_terminator (lit "a b") scratch
           (replicate 256 "z") eq_refl eq_refl).
Defined.

(** ** What the computations leave alone *)

Lemma keeps_bind {A B} (R : world → world → Prop) `{!Transitive R}
    (m : IO A) (k : A → IO B) :
  keeps R m → (∀ a, keeps R (k a)) → keeps R (m ≫= k).
Proof.
  intros Hm Hk w. specialize (Hm w). unfold mbind, IO_bind, bind.
  destruct (m w) as [[a| | |] w1]; cbn [snd] in *; [|done..].
  etrans; [exact Hm|apply Hk].
Qed.

Lemma keeps_ret {A} (R : world → world → Prop) `{!Reflexive R} (a : A) : keeps R (ret a).
Proof. intros w. reflexivity. Qed.

#[local] Instance only_talked_refl : Reflexive only_talked.
Proof.
  intros w. repeat split; [by exists []|]. exists []. by rewrite app_nil_r.
Qed.

#[local] Instance only_talked_trans : Transitive only_talked.
Proof.
  intros w1 w2 w3 (He & Hf & [t Ht] & e & Htr & Hq) (He' & Hf' & [t' Ht'] & e' & Htr' & Hq').
  repeat split; [congruence|congruence| |].
  - exists (t ++ t'). by rewrite Ht, Ht', app_assoc.
  - exists (e ++ e'). split; [by rewrite Htr', Htr, app_assoc|by apply Forall_app].
Qed.

#[local] Instance wrote_at_most_refl path : Reflexive (wrote_at_most path).
Proof. by intros w. Qed.

#[local] Instance wrote_at_most_trans path : Transitive (wrote_at_most path).
Proof.
  intros w1 w2 w3 [He Hf] [He' Hf']. split; [congruence|].
  intros other Hne. by rewrite Hf', Hf.
Qed.

Lemma only_talked_wrote_nothing path w w' : only_talked w w' → wrote_at_most path w w'.
Proof. intros (He & Hf & _). split; [done|]. intros other _. by rewrite Hf. Qed.

Lemma keeps_talk_wrote {A} path (m : IO A) : keeps only_talked m → keeps (wrote_at_most path) m.
Proof. intros H w. by apply only_talked_wrote_nothing. Qed.

Lemma fgets_chars_split k s : s = (fgets_chars k s).1 ++ (fgets_chars k s).2.
Proof.
  revert s. induction k as [|k IH]; intros [|c s]; try done.
  cbn [fgets_chars]. destruct (Ascii.eqb c LF); [done|].
  specialize (IH s). destruct (fgets_chars k s) as [l r]. cbn [fst snd app] in *.
  by rewrite <- IH.
Qed.

Lemma split_line_split s :
  s = (split_line s).1 ++ match (split_line s).2 with Some r => LF :: r | None => [] end.
Proof.
  induction s as [|c s IH]; [done|]. cbn [split_line].
  destruct (Ascii.eqb_spec c LF) as [->|_]; [done|].
  destruct (split_line s) as [l r]. cbn [fst snd app] in *. by rewrite <- IH.
Qed.

Lemma printf_talks s : keeps only_talked (printf s).
Proof.
  intros w. repeat split; [by exists []|]. exists [Out s]. split; [done|].
  by repeat constructor.
Qed.

Lemma fgets_stdin_talks n : keeps only_talked (fgets_stdin n).
Proof.
  intros w. unfold fgets_stdin.
  pose proof (fgets_chars_split (n - 1) (stdin w)) as Hsplit.
  destruct (fgets_chars (n - 1) (stdin w)) as [[|c l] r]; cbn [fst snd] in *.
  - repeat split; [by exists []|]. exists [In []]. split; [done|]. by repeat constructor.
  - repeat split; [by exists (c :: l)|]. exists [In (c :: l)]. split; [done|].
    by repeat constructor.
Qed.

Lemma getline_cin_talks str : keeps only_talked (getline_cin str).
Proof.
  intros w. unfold getline_cin. destruct (cin_good w); [|reflexivity].
  pose proof (split_line_split (stdin w)) as Hsplit.
  destruct (split_line (stdin w)) as [l [r|]]; cbn [fst snd] in *.
  - repeat split.
    + exists (l ++ [LF]). by rewrite <- app_assoc.
    + exists [In (l ++ [LF])]. split; [done|]. by repeat constructor.
  - repeat split.
    + exists l. by rewrite app_nil_r in *.
    + exists [In l]. split; [done|]. by repeat constructor.
Qed.

Lemma C_prompt_talks fuel tempName response finalName :
  keeps only_talked (C.prompt_user_for_folder_name fuel tempName response finalName).
Proof.
  revert tempName response finalName.
  induction fuel as [|fuel IH]; intros tempName response finalName; [intros w; reflexivity|].
  cbn [C.prompt_user_for_folder_name].
  destruct (C.sanitize_folder_name finalName tempName) as [buf|]; [|intros w; reflexivity].
  apply keeps_bind; [apply _|apply printf_talks|intros _].
  apply keeps_bind; [apply _|apply printf_talks|intros _].
  apply keeps_bind; [apply _|apply fgets_stdin_talks|intros r].
  cbv zeta. destruct (Ascii.eqb _ _); [apply keeps_ret, _|].
  apply keeps_bind; [apply _|apply printf_talks|intros _].
  apply keeps_bind; [apply _|apply fgets_stdin_talks|intros r'].
  apply IH.
Qed.

Lemma Cpp_prompt_talks fuel name : keeps only_talked (Cpp.promptForFolderName fuel name).
Proof.
  revert name. induction fuel as [|fuel IH]; intros name; [intros w; reflexivity|].
  cbn [Cpp.promptForFolderName].
  apply keeps_bind; [apply _|apply printf_talks|intros _].
  apply keeps_bind; [apply _|apply printf_talks|intros _].
  apply keeps_bind; [apply _|apply getline_cin_talks|intros r].
  destruct (Ascii.eqb _ _); [apply keeps_ret, _|].
  apply keeps_bind; [apply _|apply printf_talks|intros _].
  apply keeps_bind; [apply _|apply getline_cin_talks|intros r'].
  apply IH.
Qed.

(** X6.  The confirmation loop only talks on the terminal: however long it
    runs and however it ends, it leaves the environment and every file as
    they were, reads the input forward, and writes nothing to standard
    error. *)
Theorem confirmation_loop_only_talks (fuel : nat)
    (tempName response finalName : list ascii) (w : world) :
  only_talked w (snd (C.prompt_user_for_folder_name fuel tempName response finalName w))
  ∧ only_talked w (snd (Cpp.promptForFolderName fuel finalName w)).
Proof. split; [apply C_prompt_talks | apply Cpp_prompt_talks]. Qed.

Lemma emit_wrote path e : keeps (wrote_at_most path) (emit e).
Proof. by intros w. Qed.

Lemma get_wrote {A} path (f : world → A) : keeps (wrote_at_most path) (get f).
Proof. by intros w. Qed.

Lemma fgets_stdin_wrote path n : keeps (wrote_at_most path) (fgets_stdin n).
Proof. apply keeps_talk_wrote, fgets_stdin_talks. Qed.

Lemma getline_cin_wrote path str : keeps (wrote_at_most path) (getline_cin str).
Proof. apply keeps_talk_wrote, getline_cin_talks. Qed.

Lemma fprintf_file_wrote path text : keeps (wrote_at_most path) (fprintf_file path text).
Proof.
  intros w. split; [done|]. intros other Hne. cbn. by rewrite lookup_insert_ne.
Qed.

(** Settles that a straight-line computation keeps [wrote_at_most]. *)
Ltac frame :=
  repeat first
    [ apply keeps_ret; apply _
    | apply emit_wrote | apply get_wrote | apply fgets_stdin_wrote
    | apply getline_cin_wrote | apply fprintf_file_wrote
    | apply keeps_bind; [apply _| |intros ?]
    | match goal with
      | |- keeps _ (if ?b then _ else _) => destruct b
      | |- keeps _ (match ?x with _ => _ end) => destruct x
      | |- keeps _ (exit _) => intros ?; reflexivity
      | |- keeps _ throw => intros ?; reflexivity
      end ].

Lemma C_get_config_path_wrote sys path size :
  keeps (wrote_at_most path) (C.get_config_path sys size).
Proof. unfold C.get_config_path, getenv_USERPROFILE, fprintf_stderr, call. frame. Qed.

Lemma C_config_wrote sys response size home w :
  USERPROFILE w = Some home →
  wrote_at_most (c_config_path home) w (snd (C.read_or_create_config sys response size w)).
Proof.
  intros Henv. unfold C.read_or_create_config.
  destruct (C_get_config_path_home sys home w Henv) as (configPath & Hpath & Hcp).
  run_with ltac:(exact Hpath).
  match goal with |- wrote_at_most ?p ?w (snd (?m ?w)) => enough (keeps (wrote_at_most p) m) by done end.
  rewrite <- Hcp.
  unfold fopen_r, getenv_USERPROFILE, printf, fprintf_stderr, call. frame.
Qed.

Lemma Cpp_config_wrote sys home w :
  USERPROFILE w = Some home →
  wrote_at_most (cpp_config_path sys home) w (snd (Cpp.readOrCreateBasePath sys w)).
Proof.
  intros Henv. unfold Cpp.readOrCreateBasePath.
  destruct (create_directories sys (c_str home ++ Cpp.CONFIG_DIR)) as [made|] eqn:Hmade.
  - run_with ltac:(by eapply (Cpp_getConfigFilePath_home sys home)).
    fold (cpp_config_path sys home).
    match goal with |- wrote_at_most ?p ?w (snd (?m ?w)) =>
      enough (keeps (wrote_at_most p) m) by done end.
    unfold Cpp.getUserProfile, getenv_USERPROFILE, Cpp.cout, Cpp.cerr, call. frame.
  - assert (Hthrow : Cpp.getConfigFilePath sys w = (Uncaught, w)).
    { unfold Cpp.getConfigFilePath.
      run_with ltac:(by apply getUserProfile_home).
      unfold call. run. by rewrite Hmade. }
    unfold mbind, IO_bind, bind. by rewrite Hthrow.
Qed.

Lemma C_config_no_home sys response size w :
  USERPROFILE w = None →
  C.read_or_create_config sys response size w =
    (Val None,
     log (Err (lit "Error: Could not determine user profile directory." ++ [LF])) w).
Proof.
  intros Henv.
  assert (Hpath : C.get_config_path sys C.MAX_PATH_LEN w
                  = (Val None,
                     log (Err (lit "Error: Could not determine user profile directory."
                               ++ [LF])) w)).
  { unfold C.get_config_path.
    run_with ltac:(unfold getenv_USERPROFILE, get; rewrite Henv; reflexivity).
    run. reflexivity. }
  unfold C.read_or_create_config. run_with ltac:(exact Hpath). reflexivity.
Qed.

Lemma Cpp_config_no_home sys w :
  USERPROFILE w = None →
  Cpp.readOrCreateBasePath sys w =
    (Exit EXIT_FAILURE, log (Err (lit "Error: USERPROFILE not found." ++ [LF])) w).
Proof.
  intros Henv.
  assert (Hexit : Cpp.getUserProfile w
                  = (Exit EXIT_FAILURE, log (Err (lit "Error: USERPROFILE not found." ++ [LF])) w)).
  { unfold Cpp.getUserProfile.
    run_with ltac:(unfold getenv_USERPROFILE, get; rewrite Henv; reflexivity).
    run. reflexivity. }
  unfold Cpp.readOrCreateBasePath, Cpp.getConfigFilePath, mbind, IO_bind, bind.
  by rewrite Hexit.
Qed.

(** X7.  The resolver writes at most one file, the configuration file of
    the home directory: in every run, however it ends, every other file
    and the environment are left as they were. *)
Theorem resolver_writes_at_most_the_config_file (sys : platform)
    (response home : list ascii) (size : nat) (w : world) :
  USERPROFILE w = Some home →
  wrote_at_most (c_config_path home) w
    (snd (C.read_or_create_config sys response size w))
  ∧ wrote_at_most (cpp_config_path sys home) w (snd (Cpp.readOrCreateBasePath sys w)).
Proof.
  intros Henv. split; [by apply C_config_wrote | by apply Cpp_config_wrote].
Qed.

Lemma resolver_writes_at_most_the_config_file_witness :
  USERPROFILE (demo_world ["n"; LF; "D"; LF]) = Some home_u ∧
  wrote_at_most (c_config_path home_u) (demo_world ["n"; LF; "D"; LF])
    (snd (C.read_or_create_config demo_sys [] C.MAX_PATH_LEN
            (demo_world ["n"; LF; "D"; LF]))).
Proof.
  split; [reflexivity|].
  exact (proj1 (resolver_writes_at_most_the_config_file demo_sys [] home_u
                  C.MAX_PATH_LEN (demo_world ["n"; LF; "D"; LF]) eq_refl)).
Defined.

(** ** The failures of [main] *)

(** X8.  Started under its name with any number of arguments other than
    one, either program writes the usage line to standard error and ends
    with the failure status; nothing is asked, read or written besides,
    and the two lines are the same. *)
Theorem wrong_argument_count_is_refused (sys : platform) (fuel : nat)
    (tempName response response' program : list ascii)
    (arguments : list (list ascii)) (w : world) :
  length arguments ≠ 1 →
  C.main sys fuel tempName response response' (program :: arguments) w
    = (Val EXIT_FAILURE, log (Err (usage program)) w)
  ∧ Cpp.main sys fuel (program :: arguments) w
    = (Val EXIT_FAILURE, log (Err (usage program)) w).
Proof.
  intros Hargc.
  assert (Hno : (length (program :: arguments) =? 2) = false).
  { apply Nat.eqb_neq. cbn [length]. lia. }
  unfold C.main, Cpp.main. rewrite Hno. cbn [negb]. split; reflexivity.
Qed.

Lemma wrong_argument_count_is_refused_witness :
  C.main demo_sys 1 scratch [] [] [lit "FolderManager"; lit "my"; lit "folder"]
    (demo_world ["y"; LF])
    = (Val EXIT_FAILURE,
       log (Err (lit "Usage: FolderManager <folder_name>" ++ [LF])) (demo_world ["y"; LF])).
Proof.
  exact (proj1 (wrong_argument_count_is_refused demo_sys 1 scratch [] []
                  (lit "FolderManager") [lit "my"; lit "folder"] (demo_world ["y"; LF])
                  ltac:(discriminate))).
Defined.

(** X9.  The home directory is looked up only after the name has been
    confirmed.  When [USERPROFILE] is not set, the run that confirmed a
    name ends right after the loop with one line on standard error:
    [main.c] returns the failure status, [main.cpp] leaves through
    [exit] with it; no file is written. *)
Theorem missing_home_fails_after_the_name (sys : platform) (fuel : nat)
    (tempName response response' name : list ascii) (argv : list (list ascii))
    (w : world) :
  length argv = 2 → USERPROFILE w = None →
  (fst (C.prompt_user_for_folder_name fuel tempName response
          (strncpy (default [] (argv !! 1)) (C.MAX_NAME_LEN - 1)) w) = Val name →
   C.main sys fuel tempName response response' argv w
     = (Val EXIT_FAILURE,
        log (Err (lit "Error: Could not determine user profile directory." ++ [LF]))
            (snd (C.prompt_user_for_folder_name fuel tempName response
                    (strncpy (default [] (argv !! 1)) (C.MAX_NAME_LEN - 1)) w)))
     ∧ files (snd (C.main sys fuel tempName response response' argv w)) = files w)
  ∧ (fst (Cpp.promptForFolderName fuel (c_str (default [] (argv !! 1))) w) = Val name →
     Cpp.main sys fuel argv w
       = (Exit EXIT_FAILURE,
          log (Err (lit "Error: USERPROFILE not found." ++ [LF]))
              (snd (Cpp.promptForFolderName fuel (c_str (default [] (argv !! 1))) w)))
     ∧ files (snd (Cpp.main sys fuel argv w)) = files w).
Proof.
  intros Hargc Henv. split; intros Hname.
  - pose proof (C_prompt_talks fuel tempName response
                  (strncpy (default [] (argv !! 1)) (C.MAX_NAME_LEN - 1)) w)
      as (He & Hf & _).
    assert (Hmain : C.main sys fuel tempName response response' argv w
                    = (Val EXIT_FAILURE,
        log (Err (lit "Error: Could not determine user profile directory." ++ [LF]))
            (snd (C.prompt_user_for_folder_name fuel tempName response
                    (strncpy (default [] (argv !! 1)) (C.MAX_NAME_LEN - 1)) w)))).
    { unfold C.main. rewrite Hargc. cbn [Nat.eqb negb]. cbv iota zeta.
      run_with ltac:(by apply run_fst).
      run_with ltac:(apply C_config_no_home; congruence). reflexivity. }
    split; [exact Hmain|]. rewrite Hmain. exact Hf.
  - pose proof (Cpp_prompt_talks fuel (c_str (default [] (argv !! 1))) w) as (He & Hf & _).
    assert (Hmain : Cpp.main sys fuel argv w
       = (Exit EXIT_FAILURE,
          log (Err (lit "Error: USERPROFILE not found." ++ [LF]))
              (snd (Cpp.promptForFolderName fuel (c_str (default [] (argv !! 1))) w)))).
    { unfold Cpp.main. rewrite Hargc. cbn [Nat.eqb negb]. cbv iota.
      run_with ltac:(by apply run_fst).
      unfold mbind, IO_bind, bind.
      rewrite Cpp_config_no_home by congruence. reflexivity. }
    split; [exact Hmain|]. rewrite Hmain. exact Hf.
Qed.

Lemma missing_home_fails_after_the_name_witness :
  C.main demo_sys 1 scratch [] [] demo_argv (homeless_world ["y"; LF])
    = (Val EXIT_FAILURE,
       World None [] true ∅
         [Out (display (lit "my_folder")); Out question; In ["y"; LF];
          Err (lit "Error: Could not determine user profile directory." ++ [LF])])
  ∧ Cpp.main demo_sys 1 demo_argv (homeless_world ["y"; LF])
    = (Exit EXIT_FAILURE,
       World None [] true ∅
         [Out (display (lit "my_folder")); Out question; In ["y"; LF];
          Err (lit "Error: USERPROFILE not found." ++ [LF])]).
Proof.
  pose proof (missing_home_fails_after_the_name demo_sys 1 scratch [] []
                (lit "my_folder") demo_argv (homeless_world ["y"; LF])
                eq_refl eq_refl) as [Hc Hcpp].
  split.
  - rewrite (proj1 (Hc ltac:(vm_compute; reflexivity))). vm_compute. reflexivity.
  - rewrite (proj1 (Hcpp ltac:(vm_compute; reflexivity))). vm_compute. reflexivity.
Defined.

(** X10.  When the target directory does not exist and cannot be created,
    the run returns the failure status, and all it has printed since the
    base directory was resolved is one line on standard error: the line
    that announces the directory is not printed, and no message of a later
    step follows.  A [create_directory] that throws ends [main.cpp] with
    the exception and nothing printed. *)
Theorem failed_creation_ends_the_run (sys : platform) (fuel : nat)
    (tempName response response' name basePath : list ascii)
    (argv : list (list ascii)) (w w1 w2 : world) :
  length argv = 2 →
  (C.prompt_user_for_folder_name fuel tempName response
     (strncpy (default [] (argv !! 1)) (C.MAX_NAME_LEN - 1)) w = (Val name, w1) →
   C.read_or_create_config sys response' C.MAX_PATH_LEN w1 = (Val (Some basePath), w2) →
   fst (C.directory_exists sys (c_full_path basePath name) w2) = Val false →
   mkdir_status sys (c_str (c_full_path basePath name)) ≠ 0%Z →
   C.main sys fuel tempName response response' argv w
     = (Val EXIT_FAILURE, log (Err (lit "Error creating directory: ")) w2))
  ∧ (Cpp.promptForFolderName fuel (c_str (default [] (argv !! 1))) w = (Val name, w1) →
     Cpp.readOrCreateBasePath sys w1 = (Val basePath, w2) →
     fs_exists sys (path_append sys basePath name) = false →
     (create_directory sys (path_append sys basePath name) = Some false →
      Cpp.main sys fuel argv w
        = (Val EXIT_FAILURE,
           log (Err (lit "Error creating directory: "
                     ++ Cpp.quoted (path_append sys basePath name) ++ [LF])) w2))
     ∧ (create_directory sys (path_append sys basePath name) = None →
        Cpp.main sys fuel argv w = (Uncaught, w2))).
Proof.
  intros Hargc. split.
  - intros Hname Hbase Hthere Hmk. apply Z.eqb_neq in Hmk.
    unfold C.main. rewrite Hargc. cbn [Nat.eqb negb]. cbv iota zeta.
    run_with ltac:(exact Hname). run_with ltac:(exact Hbase).
    fold (c_full_path basePath name).
    run_with ltac:(apply run_fst; exact Hthere). cbn [negb]. cbv iota.
    unfold C.directory_exists. erewrite run_bind by reflexivity. unfold ret. cbn [snd].
    run. rewrite Hmk. cbn [negb]. cbv iota. reflexivity.
  - intros Hname Hbase Hthere.
    assert (Hmain : Cpp.main sys fuel argv w
                    = match create_directory sys (path_append sys basePath name) with
                      | None => (Uncaught, w2)
                      | Some false =>
                          (Val EXIT_FAILURE,
                           log (Err (lit "Error creating directory: "
                                     ++ Cpp.quoted (path_append sys basePath name)
                                     ++ [LF])) w2)
                      | Some true =>
                          Cpp.enter_and_open sys (path_append sys basePath name)
                            (log (Out (lit "Directory created: "
                                       ++ Cpp.quoted (path_append sys basePath name)
                                       ++ [LF])) w2)
                      end).
    { unfold Cpp.main. rewrite Hargc. cbn [Nat.eqb negb]. cbv iota.
      run_with ltac:(exact Hname). run_with ltac:(exact Hbase). run. run.
      rewrite Hthere. cbn [negb]. cbv iota. run.
      destruct (create_directory sys (path_append sys basePath name)) as [[]|];
        [run; reflexivity|reflexivity|reflexivity]. }
    split; intros Hmk; rewrite Hmain, Hmk; reflexivity.
Qed.

Lemma failed_creation_ends_the_run_witness :
  C.main no_mkdir 1 scratch [] [] demo_argv (demo_world ["y"; LF; "y"; LF])
    = (Val EXIT_FAILURE,
       log (Err (lit "Error creating directory: "))
         (snd (C.read_or_create_config no_mkdir [] C.MAX_PATH_LEN
                 (snd (C.prompt_user_for_folder_name 1 scratch [] (lit "my folder")
                         (demo_world ["y"; LF; "y"; LF]))))))
  ∧ Cpp.main no_mkdir 1 demo_argv (demo_world ["y"; LF; "y"; LF])
    = (Val EXIT_FAILURE,
       log (Err (lit "Error creating directory: "
                 ++ [DQUOTE] ++ lit "/home/u\\Projects\\my_folder" ++ [DQUOTE; LF]))
         (snd (Cpp.readOrCreateBasePath no_mkdir
                 (snd (Cpp.promptForFolderName 1 (lit "my folder")
                         (demo_world ["y"; LF; "y"; LF])))))).
Proof.
  pose proof (failed_creation_ends_the_run no_mkdir 1 scratch [] []
                (lit "my_folder") (lit "/home/u\Projects") demo_argv
                (demo_world ["y"; LF; "y"; LF])) as H.
  split.
  - refine (proj1 (H _ _ eq_refl) _ _ _ _);
      [vm_compute; reflexivity|vm_compute; reflexivity|vm_compute; reflexivity
      |vm_compute; discriminate].
  - rewrite (proj1 (proj2 (H (snd (Cpp.promptForFolderName 1 (lit "my folder")
                                     (demo_world ["y"; LF; "y"; LF])))
                             (snd (Cpp.readOrCreateBasePath no_mkdir
                                     (snd (Cpp.promptForFolderName 1 (lit "my folder")
                                             (demo_world ["y"; LF; "y"; LF])))))
                             eq_refl)
                      ltac:(vm_compute; reflexivity) ltac:(vm_compute; reflexivity)
                      eq_refl) eq_refl).
    vm_compute. reflexivity.
Defined.

Lemma C_enter_refused sys fullPath w :
  chdir_status sys (c_str fullPath) ≠ 0%Z →
  C.enter_and_open sys fullPath w
    = (Val EXIT_FAILURE, log (Err (lit "Error changing directory: ")) w).
Proof.
  intros Hcd. apply Z.eqb_neq in Hcd. unfold C.enter_and_open. run.
  rewrite Hcd. reflexivity.
Qed.

Lemma Cpp_enter_refused sys fullPath w :
  chdir_status sys (c_str fullPath) ≠ 0%Z →
  Cpp.enter_and_open sys fullPath w
    = (Val EXIT_FAILURE, log (Err (lit "Error changing directory: ")) w).
Proof.
  intros Hcd. apply Z.eqb_neq in Hcd. unfold Cpp.enter_and_open. run.
  rewrite Hcd. reflexivity.
Qed.

(** X11.  When the target directory exists or was created but [_chdir]
    fails, the run returns the failure status, and what it has printed
    since the base directory was resolved is the line that announces the
    directory and one line on standard error, in this order: no message of
    the steps after [_chdir] follows, whatever the platform answers
    there. *)
Theorem failed_chdir_ends_the_run (sys : platform) (fuel : nat)
    (tempName response response' name basePath : list ascii)
    (argv : list (list ascii)) (w w1 w2 : world) :
  length argv = 2 →
  (C.prompt_user_for_folder_name fuel tempName response
     (strncpy (default [] (argv !! 1)) (C.MAX_NAME_LEN - 1)) w = (Val name, w1) →
   C.read_or_create_config sys response' C.MAX_PATH_LEN w1 = (Val (Some basePath), w2) →
   fst (C.directory_exists sys (c_full_path basePath name) w2) = Val true
   ∨ mkdir_status sys (c_str (c_full_path basePath name)) = 0%Z →
   chdir_status sys (c_str (c_full_path basePath name)) ≠ 0%Z →
   ∃ note, note ∈ announcements ∧
     C.main sys fuel tempName response response' argv w
       = (Val EXIT_FAILURE,
          log (Err (lit "Error changing directory: "))
            (log (Out (note ++ c_str (c_full_path basePath name) ++ [LF])) w2)))
  ∧ (Cpp.promptForFolderName fuel (c_str (default [] (argv !! 1))) w = (Val name, w1) →
     Cpp.readOrCreateBasePath sys w1 = (Val basePath, w2) →
     fs_exists sys (path_append sys basePath name) = true
     ∨ create_directory sys (path_append sys basePath name) = Some true →
     chdir_status sys (c_str (path_append sys basePath name)) ≠ 0%Z →
     ∃ note, note ∈ announcements ∧
       Cpp.main sys fuel argv w
         = (Val EXIT_FAILURE,
            log (Err (lit "Error changing directory: "))
              (log (Out (note ++ Cpp.quoted (path_append sys basePath name) ++ [LF]))
                   w2))).
Proof.
  intros Hargc. split.
  - intros Hname Hbase Hdir Hcd.
    unfold C.main. rewrite Hargc. cbn [Nat.eqb negb]. cbv iota zeta.
    run_with ltac:(exact Hname). run_with ltac:(exact Hbase).
    fold (c_full_path basePath name).
    unfold C.directory_exists in *. run_with ltac:(run; reflexivity).
    revert Hdir. erewrite run_bind by reflexivity. unfold ret. cbn [fst]. intros Hdir.
    match goal with |- context [negb ?b] => destruct b end; cbn [negb]; cbv iota.
    + run. rewrite C_enter_refused by done.
      exists (lit "Directory already exists: "). split; [|reflexivity].
      unfold announcements. rewrite !elem_of_cons. tauto.
    + destruct Hdir as [Hdir|Hdir]; [discriminate|].
      run. rewrite Hdir. cbn [Z.eqb negb]. cbv iota. run.
      rewrite C_enter_refused by done.
      exists (lit "Directory created: "). split; [|reflexivity].
      unfold announcements. rewrite !elem_of_cons. tauto.
  - intros Hname Hbase Hdir Hcd.
    unfold Cpp.main. rewrite Hargc. cbn [Nat.eqb negb]. cbv iota.
    run_with ltac:(exact Hname). run_with ltac:(exact Hbase). run. run.
    destruct (fs_exists sys (path_append sys basePath name)); cbn [negb]; cbv iota.
    + run. rewrite Cpp_enter_refused by done.
      exists (lit "Directory already exists: "). split; [|reflexivity].
      unfold announcements. rewrite !elem_of_cons. tauto.
    + destruct Hdir as [Hdir|Hdir]; [discriminate|].
      run. rewrite Hdir. run. rewrite Cpp_enter_refused by done.
      exists (lit "Directory created: "). split; [|reflexivity].
      unfold announcements. rewrite !elem_of_cons. tauto.
Qed.

Lemma failed_chdir_ends_the_run_witness :
  (∃ note, note ∈ announcements ∧
     C.main no_chdir 1 scratch [] [] demo_argv (demo_world ["y"; LF; "y"; LF])
       = (Val EXIT_FAILURE,
          log (Err (lit "Error changing directory: "))
            (log (Out (note ++ lit "/home/u\Projects\my_folder" ++ [LF]))
               (snd (C.read_or_create_config no_chdir [] C.MAX_PATH_LEN
                       (snd (C.prompt_user_for_folder_name 1 scratch [] (lit "my folder")
                               (demo_world ["y"; LF; "y"; LF]))))))))
  ∧ fst (Cpp.main no_chdir 1 demo_argv (demo_world ["y"; LF; "y"; LF]))
    = Val EXIT_FAILURE.
Proof.
  pose proof (failed_chdir_ends_the_run no_chdir 1 scratch [] []
                (lit "my_folder") (lit "/home/u\Projects") demo_argv
                (demo_world ["y"; LF; "y"; LF])) as H.
  split.
  - refine (proj1 (H _ _ eq_refl) _ _ _ _);
      [vm_compute; reflexivity|vm_compute; reflexivity|right; vm_compute; reflexivity
      |vm_compute; discriminate].
  - destruct (proj2 (H (snd (Cpp.promptForFolderName 1 (lit "my folder")
                               (demo_world ["y"; LF; "y"; LF])))
                       (snd (Cpp.readOrCreateBasePath no_chdir
                               (snd (Cpp.promptForFolderName 1 (lit "my folder")
                                       (demo_world ["y"; LF; "y"; LF])))))
                       eq_refl)
                ltac:(vm_compute; reflexivity) ltac:(vm_compute; reflexivity)
                ltac:(right; reflexivity) ltac:(vm_compute; discriminate))
      as (note & _ & ->).
    reflexivity.
Defined.

(** ** A configuration file that cannot be written *)

Lemma talked_files {A} (m : IO A) w : keeps only_talked m → files (snd (m w)) = files w.
Proof. intros H. by destruct (H w) as (_ & Hf & _). Qed.

Lemma last_log e w : last (trace (log e w)) = Some e.
Proof. unfold log. cbn [trace]. apply last_snoc. Qed.

Lemma C_config_unwritable sys response size home w :
  USERPROFILE w = Some home →
  files w !! c_config_path home = None →
  fopen_w_ok sys (c_config_path home) = false →
  ∃ w', files w' = files w ∧
    C.read_or_create_config sys response size w
      = (Val None, log (Err (lit "Error: Could not write config file." ++ [LF])) w').
Proof.
  intros Henv Hfile Hw. unfold C.read_or_create_config.
  destruct (C_get_config_path_home sys home w Henv) as (configPath & Hpath & Hcp).
  run_with ltac:(exact Hpath).
  run_with ltac:(unfold fopen_r, get; rewrite Hcp, Hfile; reflexivity).
  run_with ltac:(unfold getenv_USERPROFILE, get; rewrite Henv; reflexivity).
  run. run. run.
  match goal with |- context [ (fgets_stdin 10 ≫= _) ?w0 ] =>
    assert (Hf0 : files w0 = files w) by reflexivity; set (w1 := w0) in *; clearbody w1 end.
  pose proof (talked_files (fgets_stdin 10) w1 (fgets_stdin_talks 10)) as Hf1.
  destruct (fgets_stdin_Val 10 w1) as (r & w2 & Hr). rewrite Hr in Hf1. cbn [snd] in Hf1.
  run_with ltac:(exact Hr).
  rewrite Hcp, Hw. cbn [negb].
  destruct (negb (Ascii.eqb (tolower (char_at (default response r) 0)) "y")).
  - match goal with |- context [ ((printf ?s;; _) ≫= _) w2 ] =>
      pose proof (talked_files (fgets_stdin size) (log (Out s) w2)
                    (fgets_stdin_talks size)) as Hf3;
      destruct (fgets_stdin_Val size (log (Out s) w2)) as (r' & w4 & Hr') end.
    rewrite Hr' in Hf3. cbn [snd] in Hf3.
    run_with ltac:(run; run_with ltac:(exact Hr'); reflexivity).
    exists w4. split; [rewrite Hf3; cbn [files log]; congruence|].
    run. cbn [negb]. run. reflexivity.
  - exists w2. split; [congruence|]. run. run. cbn [negb]. run. reflexivity.
Qed.

Lemma Cpp_config_unwritable sys home made w :
  USERPROFILE w = Some home →
  create_directories sys (c_str home ++ Cpp.CONFIG_DIR) = Some made →
  files w !! cpp_config_path sys home = None →
  fopen_w_ok sys (cpp_config_path sys home) = false →
  ∃ basePath w', files w' = files w ∧
    Cpp.readOrCreateBasePath sys w
      = (Val basePath, log (Out (lit "Saved base directory to config file." ++ [LF])) w').
Proof.
  intros Henv Hmade Hfile Hw. unfold cpp_config_path in *. unfold Cpp.readOrCreateBasePath.
  run_with ltac:(by eapply (Cpp_getConfigFilePath_home sys home)).
  run_with ltac:(unfold get; rewrite Hfile; reflexivity).
  run_with ltac:(by apply getUserProfile_home).
  run. run. run.
  match goal with |- context [ (getline_cin [] ≫= _) ?w0 ] =>
    assert (Hf0 : files w0 = files w) by reflexivity; set (w1 := w0) in *; clearbody w1 end.
  pose proof (talked_files (getline_cin []) w1 (getline_cin_talks [])) as Hf1.
  destruct (getline_cin_Val [] w1) as (r & w2 & Hr). rewrite Hr in Hf1. cbn [snd] in Hf1.
  run_with ltac:(exact Hr). rewrite Hw.
  destruct (Ascii.eqb (tolower (char_at r 0)) "y").
  - eexists _, w2. split; [congruence|]. run. run. run. run. reflexivity.
  - match goal with |- context [ ((Cpp.cout ?s;; getline_cin []) ≫= _) w2 ] =>
      pose proof (talked_files (getline_cin []) (log (Out s) w2) (getline_cin_talks []))
        as Hf3;
      destruct (getline_cin_Val [] (log (Out s) w2)) as (r' & w4 & Hr') end.
    rewrite Hr' in Hf3. cbn [snd] in Hf3.
    run_with ltac:(run; exact Hr').
    eexists _, w4. split; [rewrite Hf3; cbn [files log]; congruence|].
    run. run. run. reflexivity.
Qed.

(** X12.  On a first run whose configuration file cannot be opened for
    writing, the two programs part ways.  [main.c] reports the failure on
    standard error and resolves nothing.  [main.cpp] does not look at the
    stream it opened: it returns the base directory, and the last thing it
    prints is that the directory was saved.  Neither stores a file, so
    the next run asks again. *)
Theorem unwritable_config_file (sys : platform) (response home : list ascii)
    (size : nat) (w : world) :
  USERPROFILE w = Some home →
  (files w !! c_config_path home = None →
   fopen_w_ok sys (c_config_path home) = false →
   fst (C.read_or_create_config sys response size w) = Val None ∧
   files (snd (C.read_or_create_config sys response size w)) = files w ∧
   last (trace (snd (C.read_or_create_config sys response size w)))
     = Some (Err (lit "Error: Could not write config file." ++ [LF])))
  ∧ (create_directories sys (c_str home ++ Cpp.CONFIG_DIR) ≠ None →
     files w !! cpp_config_path sys home = None →
     fopen_w_ok sys (cpp_config_path sys home) = false →
     (∃ basePath, fst (Cpp.readOrCreateBasePath sys w) = Val basePath) ∧
     files (snd (Cpp.readOrCreateBasePath sys w)) = files w ∧
     last (trace (snd (Cpp.readOrCreateBasePath sys w)))
       = Some (Out (lit "Saved base directory to config file." ++ [LF]))).
Proof.
  intros Henv. split.
  - intros Hfile Hw.
    destruct (C_config_unwritable sys response size home w Henv Hfile Hw)
      as (w' & Hf & ->).
    cbn [fst snd]. split; [done|]. split; [exact Hf|apply last_log].
  - intros Hmade Hfile Hw.
    destruct (create_directories sys (c_str home ++ Cpp.CONFIG_DIR)) as [made|] eqn:Hm;
      [|done].
    destruct (Cpp_config_unwritable sys home made w Henv Hm Hfile Hw)
      as (basePath & w' & Hf & ->).
    cbn [fst snd]. split; [by exists basePath|]. split; [exact Hf|apply last_log].
Qed.

Lemma unwritable_config_file_witness :
  fst (C.read_or_create_config read_only [] C.MAX_PATH_LEN (demo_world ["y"; LF]))
    = Val None
  ∧ files (snd (Cpp.readOrCreateBasePath read_only (demo_world ["y"; LF]))) = ∅
  ∧ last (trace (snd (Cpp.readOrCreateBasePath read_only (demo_world ["y"; LF]))))
    = Some (Out (lit "Saved base directory to config file." ++ [LF])).
Proof.
  pose proof (unwritable_config_file read_only [] home_u C.MAX_PATH_LEN
                (demo_world ["y"; LF]) eq_refl) as [Hc Hcpp].
  split; [exact (proj1 (Hc eq_refl eq_refl))|].
  exact (proj2 (Hcpp ltac:(discriminate) eq_refl eq_refl)).
Defined.

(** ** What a first run stores is what later runs return *)

Lemma before_any_free stops s :
  Forall (λ c, existsb (Ascii.eqb c) stops = false) (before_any stops s).
Proof.
  induction s as [|c s IH]; cbn [before_any]; [constructor|].
  destruct (existsb (Ascii.eqb c) stops) eqn:Hc; by constructor.
Qed.

Lemma before_any_length stops s : length (before_any stops s) ≤ length s.
Proof.
  induction s as [|c s IH]; cbn [before_any]; [done|].
  destruct (existsb (Ascii.eqb c) stops); cbn [length]; lia.
Qed.

Lemma before_any_fixed stops s :
  Forall (λ c, existsb (Ascii.eqb c) stops = false) s → before_any stops s = s.
Proof. induction 1 as [|c s Hc _ IH]; cbn [before_any]; [done|]. by rewrite Hc, IH. Qed.

Lemma before_any_app_stop stops s c rest :
  Forall (λ c, existsb (Ascii.eqb c) stops = false) s →
  existsb (Ascii.eqb c) stops = true →
  before_any stops (s ++ c :: rest) = s.
Proof.
  intros Hs Hc. induction Hs as [|d s Hd _ IH]; cbn [before_any app].
  - by rewrite Hc.
  - by rewrite Hd, IH.
Qed.

Lemma c_str_free s : Forall (λ c, existsb (Ascii.eqb c) [NUL] = false) s → c_str s = s.
Proof.
  induction 1 as [|c s Hc _ IH]; cbn [c_str]; [done|].
  cbn [existsb] in Hc. rewrite orb_false_r in Hc. by rewrite Hc, IH.
Qed.

Lemma fgets_chars_length k s : length (fgets_chars k s).1 ≤ k.
Proof.
  revert s. induction k as [|k IH]; intros [|c s]; cbn [fgets_chars fst length]; try lia.
  destruct (Ascii.eqb c LF); cbn [fst length]; [lia|].
  specialize (IH s). destruct (fgets_chars k s) as [l r]. cbn [fst length] in *. lia.
Qed.

Lemma fgets_stdin_length n w r w' :
  fgets_stdin n w = (Val (Some r), w') → length r ≤ n - 1.
Proof.
  unfold fgets_stdin. pose proof (fgets_chars_length (n - 1) (stdin w)) as Hlen.
  destruct (fgets_chars (n - 1) (stdin w)) as [[|c l] rest]; intros [= <- _]; done.
Qed.

(** A line of at most [k] characters, stored with a new-line after it,
    is what a read of [k] characters up to the first stop gives back. *)
Lemma stored_line_read_back stops k p :
  existsb (Ascii.eqb LF) stops = true →
  Forall (λ c, existsb (Ascii.eqb c) stops = false) p →
  length p ≤ k →
  before_any stops (take k (p ++ [LF])) = p.
Proof.
  intros HLF Hp Hlen. destruct (decide (length p = k)) as [<-|Hne].
  - rewrite take_app_length. by apply before_any_fixed.
  - rewrite take_ge by (rewrite length_app; cbn [length]; lia).
    by apply before_any_app_stop.
Qed.

Lemma one_line_free s :
  one_line s → Forall (λ c, c ≠ NUL) s →
  Forall (λ c, existsb (Ascii.eqb c) [NUL; CR; LF] = false) s.
Proof.
  intros H1 H2. apply Forall_forall. intros c Hc.
  pose proof (proj1 (Forall_forall _ _) H1 c Hc) as [Hcr Hlf].
  pose proof (proj1 (Forall_forall _ _) H2 c Hc) as Hn.
  cbn [existsb]. rewrite orb_false_r.
  destruct (Ascii.eqb_spec c NUL), (Ascii.eqb_spec c CR), (Ascii.eqb_spec c LF); done.
Qed.

Lemma free_of_NUL s :
  Forall (λ c, existsb (Ascii.eqb c) [NUL; CR; LF] = false) s →
  Forall (λ c, existsb (Ascii.eqb c) [NUL] = false) s.
Proof.
  intros H. eapply Forall_impl; [exact H|]. intros c Hc. cbn [existsb] in *.
  destruct (Ascii.eqb c NUL); [done|reflexivity].
Qed.

(** The base path a first run of [main.c] settles on. *)
Lemma C_config_first_run_any sys response size home w :
  USERPROFILE w = Some home →
  files w !! c_config_path home = None →
  fopen_w_ok sys (c_config_path home) = true →
  ∃ basePath w',
    C.read_or_create_config sys response size w = (Val (Some basePath), w') ∧
    files w' !! c_config_path home = Some (c_str basePath ++ [LF]) ∧
    (basePath = snprintf size (c_str home ++ lit "\Projects")
     ∨ ∃ r, length r ≤ size - 1 ∧ basePath = before_any [NUL; CR; LF] r).
Proof.
  intros Henv Hfile Hw. unfold C.read_or_create_config.
  destruct (C_get_config_path_home sys home w Henv) as (configPath & Hpath & Hcp).
  run_with ltac:(exact Hpath).
  run_with ltac:(unfold fopen_r, get; rewrite Hcp, Hfile; reflexivity).
  run_with ltac:(unfold getenv_USERPROFILE, get; rewrite Henv; reflexivity).
  run. run. run. cbn [default].
  match goal with |- context [ (fgets_stdin 10 ≫= _) ?w0 ] =>
    destruct (fgets_stdin_Val 10 w0) as (r & w2 & Hr) end.
  run_with ltac:(exact Hr). rewrite Hcp, Hw. cbn [negb].
  destruct (negb (Ascii.eqb (tolower (char_at (default response r) 0)) "y")).
  - match goal with |- context [ ((printf ?s;; _) ≫= _) w2 ] =>
      pose proof (fgets_stdin_length size (log (Out s) w2)) as Hlen;
      destruct (fgets_stdin_Val size (log (Out s) w2)) as (r' & w4 & Hr') end.
    eexists _, _. split; [|split].
    + run_with ltac:(run; run_with ltac:(exact Hr'); reflexivity).
      run. cbn [negb]. run. run. reflexivity.
    + unfold log, set_file. cbn [files]. apply lookup_insert_eq.
    + right. rewrite cut_at_strcspn. eexists. split; [|reflexivity].
      destruct r' as [r'|]; cbn [default]; [by eapply Hlen|].
      unfold snprintf. rewrite length_take. lia.
  - eexists _, _. split; [|split].
    + run. run. cbn [negb]. run. run. reflexivity.
    + unfold log, set_file. cbn [files]. apply lookup_insert_eq.
    + by left.
Qed.

(** The base path a first run of [main.cpp] settles on. *)
Lemma Cpp_config_first_run_any sys home made w :
  USERPROFILE w = Some home →
  create_directories sys (c_str home ++ Cpp.CONFIG_DIR) = Some made →
  files w !! cpp_config_path sys home = None →
  fopen_w_ok sys (cpp_config_path sys home) = true →
  ∃ basePath w',
    Cpp.readOrCreateBasePath sys w = (Val basePath, w') ∧
    files w' !! cpp_config_path sys home = Some (basePath ++ [LF]) ∧
    (basePath = c_str home ++ lit "\Projects"
     ∨ Forall (λ c, existsb (Ascii.eqb c) [LF] = false) basePath).
Proof.
  intros Henv Hmade Hfile Hw. unfold cpp_config_path in *. unfold Cpp.readOrCreateBasePath.
  run_with ltac:(by eapply (Cpp_getConfigFilePath_home sys home)).
  run_with ltac:(unfold get; rewrite Hfile; reflexivity).
  run_with ltac:(by apply getUserProfile_home).
  run. run. run.
  match goal with |- context [ (getline_cin [] ≫= _) ?w0 ] =>
    destruct (getline_cin_Val [] w0) as (r & w2 & Hr) end.
  run_with ltac:(exact Hr). rewrite Hw.
  destruct (Ascii.eqb (tolower (char_at r 0)) "y").
  - eexists _, _. split; [|split].
    + run. run. run. run. reflexivity.
    + unfold log, set_file. cbn [files]. apply lookup_insert_eq.
    + by left.
  - match goal with |- context [ ((Cpp.cout ?s;; getline_cin []) ≫= _) w2 ] =>
      destruct (getline_cin_Val [] (log (Out s) w2)) as (r' & w4 & Hr') end.
    eexists _, _. split; [|split].
    + run_with ltac:(run; exact Hr'). run. run. run. reflexivity.
    + unfold log, set_file. cbn [files]. apply lookup_insert_eq.
    + right. revert Hr'. unfold getline_cin.
      destruct (cin_good _); [|intros [= <- _]; constructor].
      match goal with |- context [split_line ?s] =>
        pose proof (getline_file_before s) as Hb; unfold getline_file in Hb;
        destruct (split_line s) as [l [rest|]] end;
        cbn [fst] in Hb; intros [= <- _]; rewrite Hb; apply before_any_free.
Qed.

(** X13.  Whatever is answered on a first run, in a home directory whose
    name holds no carriage return and no new-line: the base directory the
    first run returns is the one every later run returns, in any world
    with the same home directory and the same configuration file, without
    a question and without a change to the world. *)
Theorem stored_base_path_is_returned (sys : platform)
    (response response2 home : list ascii) (w w2 : world) :
  USERPROFILE w = Some home → USERPROFILE w2 = Some home → one_line (c_str home) →
  (files w !! c_config_path home = None →
   fopen_w_ok sys (c_config_path home) = true →
   files w2 !! c_config_path home
     = files (snd (C.read_or_create_config sys response C.MAX_PATH_LEN w))
         !! c_config_path home →
   ∃ basePath,
     fst (C.read_or_create_config sys response C.MAX_PATH_LEN w) = Val (Some basePath) ∧
     C.read_or_create_config sys response2 C.MAX_PATH_LEN w2 = (Val (Some basePath), w2))
  ∧ (create_directories sys (c_str home ++ Cpp.CONFIG_DIR) ≠ None →
     files w !! cpp_config_path sys home = None →
     fopen_w_ok sys (cpp_config_path sys home) = true →
     files w2 !! cpp_config_path sys home
       = files (snd (Cpp.readOrCreateBasePath sys w)) !! cpp_config_path sys home →
     ∃ basePath,
       fst (Cpp.readOrCreateBasePath sys w) = Val basePath ∧
       Cpp.readOrCreateBasePath sys w2 = (Val basePath, w2)).
Proof.
  intros Henv Henv2 Hhome. split.
  - intros Hfile Hw Hsame.
    destruct (C_config_first_run_any sys response C.MAX_PATH_LEN home w Henv Hfile Hw)
      as (basePath & w1 & Hrun & Hstored & Hbase).
    rewrite Hrun in Hsame |- *. cbn [fst snd] in *. rewrite Hstored in Hsame.
    exists basePath. split; [done|].
    assert (Hfree : Forall (λ c, existsb (Ascii.eqb c) [NUL; CR; LF] = false) basePath
                    ∧ length basePath ≤ 1023).
    { change (C.MAX_PATH_LEN - 1) with 1023 in Hbase.
      destruct Hbase as [->|(r & Hlen & ->)].
      - unfold snprintf. change (C.MAX_PATH_LEN - 1) with 1023. split.
        + apply Forall_take, Forall_app. split.
          * apply one_line_free; [done|apply c_str_no_NUL].
          * by repeat constructor.
        + rewrite length_take. lia.
      - split; [apply before_any_free|].
        pose proof (before_any_length [NUL; CR; LF] r). lia. }
    destruct Hfree as [Hfree Hlen].
    rewrite (c_str_free basePath (free_of_NUL _ Hfree)) in Hsame.
    destruct (C_get_config_path_home sys home w2 Henv2) as (configPath & Hpath & Hcp).
    rewrite (C_config_existing sys response2 configPath (basePath ++ [LF]) w2 Hpath)
      by (by rewrite Hcp).
    rewrite stored_line_read_back by done.
    by destruct basePath.
  - intros Hmade Hfile Hw Hsame.
    destruct (create_directories sys (c_str home ++ Cpp.CONFIG_DIR)) as [made|] eqn:Hm;
      [|done].
    destruct (Cpp_config_first_run_any sys home made w Henv Hm Hfile Hw)
      as (basePath & w1 & Hrun & Hstored & Hbase).
    rewrite Hrun in Hsame |- *. cbn [fst snd] in *. rewrite Hstored in Hsame.
    exists basePath. split; [done|].
    rewrite (Cpp_config_existing sys (cpp_config_path sys home) (basePath ++ [LF]) w2);
      [|by eapply Cpp_getConfigFilePath_home|done].
    f_equal. f_equal. apply before_any_app_stop; [|reflexivity].
    destruct Hbase as [->|Hfree]; [|done].
    apply Forall_app. split; [|by repeat constructor].
    eapply Forall_impl; [exact Hhome|]. intros c [_ Hlf]. cbn [existsb].
    rewrite orb_false_r. by destruct (Ascii.eqb_spec c LF).
Qed.

Lemma stored_base_path_is_returned_witness :
  C.read_or_create_config demo_sys [] C.MAX_PATH_LEN
    (snd (C.read_or_create_config demo_sys [] C.MAX_PATH_LEN
            (demo_world (["n"; LF] ++ lit "D:\Work" ++ [LF]))))
  = (Val (Some (lit "D:\Work")),
     snd (C.read_or_create_config demo_sys [] C.MAX_PATH_LEN
            (demo_world (["n"; LF] ++ lit "D:\Work" ++ [LF])))).
Proof.
  assert (Hline : one_line (c_str home_u)) by (repeat constructor; discriminate).
  destruct (proj1 (stored_base_path_is_returned demo_sys [] [] home_u
                     (demo_world (["n"; LF] ++ lit "D:\Work" ++ [LF]))
                     (snd (C.read_or_create_config demo_sys [] C.MAX_PATH_LEN
                             (demo_world (["n"; LF] ++ lit "D:\Work" ++ [LF]))))
                     eq_refl eq_refl Hline)
              eq_refl eq_refl eq_refl) as (basePath & Hfirst & Hlater).
  assert (basePath = lit "D:\Work") as ->; [|exact Hlater].
  vm_compute in Hfirst. by injection Hfirst as <-.
Defined.

(** ** The first line of a run *)

#[local] Instance trace_grows_refl : Reflexive trace_grows.
Proof. intros w. exists []. by rewrite app_nil_r. Qed.

#[local] Instance trace_grows_trans : Transitive trace_grows.
Proof.
  intros w1 w2 w3 [e He] [e' He']. exists (e ++ e'). by rewrite He', He, app_assoc.
Qed.

Lemma keeps_talk_grows {A} (m : IO A) : keeps only_talked m → keeps trace_grows m.
Proof. intros H w. destruct (H w) as (_ & _ & _ & e & He & _). by exists e. Qed.

Lemma emit_grows e : keeps trace_grows (emit e).
Proof. intros w. by exists [e]. Qed.

Lemma get_grows {A} (f : world → A) : keeps trace_grows (get f).
Proof. intros w. reflexivity. Qed.

Lemma fprintf_file_grows path text : keeps trace_grows (fprintf_file path text).
Proof. intros w. exists []. cbn. by rewrite app_nil_r. Qed.

(** Settles that a straight-line computation keeps [trace_grows]. *)
Ltac grows :=
  repeat first
    [ apply keeps_ret; apply _
    | apply emit_grows | apply get_grows | apply fprintf_file_grows
    | apply keeps_talk_grows, fgets_stdin_talks
    | apply keeps_talk_grows, getline_cin_talks
    | apply keeps_bind; [apply _| |intros ?]
    | match goal with
      | |- keeps _ (if ?b then _ else _) => destruct b
      | |- keeps _ (match ?x with _ => _ end) => destruct x
      | |- keeps _ (exit _) => intros ?; reflexivity
      | |- keeps _ throw => intros ?; reflexivity
      end ].

Lemma C_config_grows sys response size :
  keeps trace_grows (C.read_or_create_config sys response size).
Proof.
  unfold C.read_or_create_config, C.get_config_path, fopen_r, getenv_USERPROFILE,
    printf, fprintf_stderr, call.
  grows.
Qed.

Lemma Cpp_config_grows sys : keeps trace_grows (Cpp.readOrCreateBasePath sys).
Proof.
  unfold Cpp.readOrCreateBasePath, Cpp.getConfigFilePath, Cpp.getUserProfile,
    getenv_USERPROFILE, Cpp.cout, Cpp.cerr, call.
  grows.
Qed.

Lemma C_enter_grows sys fullPath : keeps trace_grows (C.enter_and_open sys fullPath).
Proof.
  unfold C.enter_and_open, C.open_in_file_explorer, C.open_downloads_folder, perror,
    fprintf_stderr, call.
  grows.
Qed.

Lemma Cpp_enter_grows sys fullPath : keeps trace_grows (Cpp.enter_and_open sys fullPath).
Proof.
  unfold Cpp.enter_and_open, Cpp.openInExplorer, Cpp.openDownloadsFolder, perror,
    Cpp.cerr, call.
  grows.
Qed.

Lemma c_str_take_c_str n s : c_str (take n (c_str s)) = take n (c_str s).
Proof.
  apply c_str_free, Forall_take. eapply Forall_impl; [apply c_str_no_NUL|].
  intros c Hc. cbn [existsb]. rewrite orb_false_r. by destruct (Ascii.eqb_spec c NUL).
Qed.

Lemma keeps_first_event {A} (m : IO A) e w :
  keeps trace_grows m → ∃ more, trace (snd (m (log e w))) = trace w ++ e :: more.
Proof.
  intros H. destruct (H (log e w)) as [more ->]. exists more.
  unfold log. cbn [trace]. by rewrite <- app_assoc.
Qed.

(** X14.  The first line of every run with one argument displays the
    name the loop starts from.  [main.c] copies at most 255 bytes of the
    argument before it sanitises them, so its line shows the sanitised
    form of the first 255 bytes of the argument, whatever follows them;
    the line of [main.cpp] shows the sanitised form of the whole
    argument. *)
Theorem first_line_shows_the_starting_name (sys : platform) (fuel : nat)
    (tempName response response' : list ascii) (argv : list (list ascii)) (w : world) :
  length argv = 2 →
  (length tempName = C.MAX_NAME_LEN →
   ∃ more,
     trace (snd (C.main sys (S fuel) tempName response response' argv w))
       = trace w
         ++ Out (display (clean (take 255 (c_str (default [] (argv !! 1)))))) :: more)
  ∧ ∃ more,
      trace (snd (Cpp.main sys (S fuel) argv w))
        = trace w ++ Out (display (clean (c_str (default [] (argv !! 1))))) :: more.
Proof.
  intros Hargc. split.
  - intros Hlen. unfold C.main. rewrite Hargc. cbn [Nat.eqb negb]. cbv iota zeta.
    set (raw := default [] (argv !! 1)).
    destruct (sanitize_folder_name_spec (strncpy raw (C.MAX_NAME_LEN - 1)) tempName Hlen)
      as (buf & Hbuf & _ & Hs).
    unfold strncpy in Hs. change (C.MAX_NAME_LEN - 1) with 255 in Hs.
    rewrite c_str_take_c_str in Hs.
    rewrite (take_ge (clean _)) in Hs
      by (etrans; [apply clean_length|rewrite length_take; lia]).
    rewrite <- Hs.
    cbn [C.prompt_user_for_folder_name]. rewrite Hbuf.
    match goal with
    | |- context [ ((printf ?d ≫= ?k) ≫= ?rest) w ] =>
        change (((printf d ≫= k) ≫= rest) w) with ((k tt ≫= rest) (log (Out d) w));
        apply (keeps_first_event (k tt ≫= rest) (Out d) w)
    end.
    apply keeps_bind; [apply _| |intros name].
    + apply keeps_talk_grows.
      apply keeps_bind; [apply _|apply printf_talks|intros _].
      apply keeps_bind; [apply _|apply fgets_stdin_talks|intros r].
      destruct (Ascii.eqb _ _); [apply keeps_ret; apply _|].
      apply keeps_bind; [apply _|apply printf_talks|intros _].
      apply keeps_bind; [apply _|apply fgets_stdin_talks|intros r'].
      apply C_prompt_talks.
    + apply keeps_bind; [apply _|apply C_config_grows|intros [basePath|]];
        [|apply keeps_ret; apply _].
      pose proof (C_enter_grows sys) as He.
      unfold C.directory_exists, perror, printf, call. grows; apply He.
  - unfold Cpp.main. rewrite Hargc. cbn [Nat.eqb negb]. cbv iota.
    cbn [Cpp.promptForFolderName]. rewrite sanitizeFolderName_clean.
    match goal with
    | |- context [ ((Cpp.cout ?d ≫= ?k) ≫= ?rest) w ] =>
        change (((Cpp.cout d ≫= k) ≫= rest) w) with ((k tt ≫= rest) (log (Out d) w));
        apply (keeps_first_event (k tt ≫= rest) (Out d) w)
    end.
    apply keeps_bind; [apply _| |intros name].
    + apply keeps_talk_grows.
      apply keeps_bind; [apply _|apply printf_talks|intros _].
      apply keeps_bind; [apply _|apply getline_cin_talks|intros r].
      destruct (Ascii.eqb _ _); [apply keeps_ret; apply _|].
      apply keeps_bind; [apply _|apply printf_talks|intros _].
      apply keeps_bind; [apply _|apply getline_cin_talks|intros r'].
      apply Cpp_prompt_talks.
    + apply keeps_bind; [apply _|apply Cpp_config_grows|intros basePath].
      pose proof (Cpp_enter_grows sys) as He.
      unfold Cpp.cout, Cpp.cerr, call. grows; apply He.
Qed.

Lemma first_line_shows_the_starting_name_witness :
  (∃ more, trace (snd (C.main demo_sys 1 scratch [] [] long_argv (demo_world [])))
           = Out (display []) :: more)
  ∧ ∃ more, trace (snd (Cpp.main demo_sys 1 long_argv (demo_world [])))
            = Out (display ["a"]) :: more.
Proof.
  destruct (first_line_shows_the_starting_name demo_sys 0 scratch [] [] long_argv
              (demo_world []) eq_refl) as [Hc Hcpp].
  split; [exact (Hc eq_refl)|exact Hcpp].
Defined.

(** ** The end of the input *)

Lemma fgets_stdin_eof n w :
  stdin w = [] → fgets_stdin n w = (Val None, log (In []) w).
Proof. intros H. unfold fgets_stdin. rewrite H. by destruct (n - 1). Qed.

Lemma getline_cin_eof str w :
  stdin w = [] → ∃ l w', getline_cin str w = (Val l, w') ∧ stdin w' = [] ∧
                         (l = [] ∨ l = str).
Proof.
  intros H. unfold getline_cin. rewrite H. destruct (cin_good w); cbn [split_line].
  - eexists _, _. split; [reflexivity|]. split; [reflexivity|by left].
  - eexists _, _. split; [reflexivity|]. split; [done|by right].
Qed.

Lemma C_prompt_eof fuel tempName response finalName w :
  length tempName = C.MAX_NAME_LEN → stdin w = [] →
  Ascii.eqb (tolower (char_at response 0)) "y" = false →
  fst (C.prompt_user_for_folder_name fuel tempName response finalName w) = Fuel.
Proof.
  intros Hlen Hin Hno. revert tempName finalName w Hlen Hin.
  induction fuel as [|fuel IH]; intros tempName finalName w Hlen Hin; [reflexivity|].
  destruct (sanitize_folder_name_spec finalName tempName Hlen) as (buf & Hbuf & Hlb & _).
  cbn [C.prompt_user_for_folder_name]. rewrite Hbuf.
  run. run. run_with ltac:(by apply fgets_stdin_eof).
  cbn [default]. rewrite Hno. run.
  run_with ltac:(by apply fgets_stdin_eof).
  by apply IH.
Qed.

Lemma Cpp_prompt_eof fuel name w :
  stdin w = [] → fst (Cpp.promptForFolderName fuel name w) = Fuel.
Proof.
  revert name w. induction fuel as [|fuel IH]; intros name w Hin; [reflexivity|].
  cbn [Cpp.promptForFolderName]. run. run.
  match goal with |- context [ (getline_cin [] ≫= _) ?w0 ] =>
    destruct (getline_cin_eof [] w0 Hin) as (l & w1 & Hr & Hin1 & Hl) end.
  run_with ltac:(exact Hr).
  assert (l = []) as -> by (by destruct Hl).
  change (Ascii.eqb (tolower (char_at [] 0)) "y") with false. cbv iota. run.
  match goal with |- context [ (getline_cin name ≫= _) ?w0 ] =>
    destruct (getline_cin_eof name w0 Hin1) as (l' & w2 & Hr' & Hin2 & _) end.
  run_with ltac:(exact Hr').
  by apply IH.
Qed.

(** X15.  Once the input has come to its end, the confirmation loop
    cannot be left: [main.cpp] reads every missing answer as a refusal,
    and [main.c] decides on the content of its response array, which no
    read changes any more.  Unless that array starts with [y] or [Y],
    the loop asks again and again, whatever number of rounds is allowed,
    and [main] never gets past it. *)
Theorem end_of_input_is_never_confirmed (sys : platform) (fuel : nat)
    (tempName response response' finalName : list ascii)
    (argv : list (list ascii)) (w : world) :
  stdin w = [] →
  (length tempName = C.MAX_NAME_LEN →
   char_at response 0 ≠ "y" → char_at response 0 ≠ "Y" →
   fst (C.prompt_user_for_folder_name fuel tempName response finalName w) = Fuel ∧
   (length argv = 2 →
    fst (C.main sys fuel tempName response response' argv w) = Fuel))
  ∧ fst (Cpp.promptForFolderName fuel finalName w) = Fuel
  ∧ (length argv = 2 → fst (Cpp.main sys fuel argv w) = Fuel).
Proof.
  intros Hin. split; [|split].
  - intros Hlen Hy HY.
    assert (Hno : Ascii.eqb (tolower (char_at response 0)) "y" = false).
    { destruct (Ascii.eqb _ _) eqn:H; [|done]. apply tolower_y in H as [H|H]; done. }
    split; [by apply C_prompt_eof|].
    intros Hargc. unfold C.main. rewrite Hargc. cbn [Nat.eqb negb]. cbv iota zeta.
    unfold mbind at 1, IO_bind, bind.
    pose proof (C_prompt_eof fuel tempName response
                  (strncpy (default [] (argv !! 1)) (C.MAX_NAME_LEN - 1)) w Hlen Hin Hno)
      as Hloop.
    destruct (C.prompt_user_for_folder_name _ _ _ _ w) as [[| | |] w1];
      first [discriminate Hloop|reflexivity].
  - by apply Cpp_prompt_eof.
  - intros Hargc. unfold Cpp.main. rewrite Hargc. cbn [Nat.eqb negb]. cbv iota.
    unfold mbind at 1, IO_bind, bind.
    pose proof (Cpp_prompt_eof fuel (c_str (default [] (argv !! 1))) w Hin) as Hloop.
    destruct (Cpp.promptForFolderName _ _ w) as [[| | |] w1];
      first [discriminate Hloop|reflexivity].
Qed.

Lemma end_of_input_is_never_confirmed_witness :
  fst (C.main demo_sys 7 scratch [] [] demo_argv (demo_world [])) = Fuel
  ∧ fst (Cpp.main demo_sys 7 demo_argv (demo_world [])) = Fuel.
Proof.
  destruct (end_of_input_is_never_confirmed demo_sys 7 scratch [] [] [] demo_argv
              (demo_world []) eq_refl) as (Hc & _ & Hcpp).
  split.
  - exact (proj2 (Hc eq_refl ltac:(discriminate) ltac:(discriminate)) eq_refl).
  - exact (Hcpp eq_refl).
Defined.

(** ** Answers longer than the response array *)

Lemma fgets_chars_full a more :
  Forall (λ c, c ≠ LF) a → fgets_chars (length a) (a ++ more) = (a, more).
Proof.
  induction 1 as [|c a Hc _ IH]; cbn [length app fgets_chars].
  - by destruct more.
  - destruct (Ascii.eqb_spec c LF); [done|]. by rewrite IH.
Qed.

Lemma fgets_chars_line k b more :
  Forall (λ c, c ≠ LF) b → length b < k →
  fgets_chars k (b ++ LF :: more) = (b ++ [LF], more).
Proof.
  intros Hb. revert k. induction Hb as [|c b Hc _ IH]; intros k Hk.
  - destruct k; [lia|]. reflexivity.
  - destruct k; [cbn [length] in Hk; lia|]. cbn [length app fgets_chars] in *.
    destruct (Ascii.eqb_spec c LF); [done|]. rewrite IH by lia. reflexivity.
Qed.

Lemma plain_no_stop c : plain c = true → existsb (Ascii.eqb c) [NUL; CR; LF] = false.
Proof. each_char c; vm_compute; first [reflexivity | discriminate]. Qed.

Lemma plain_not_LF c : plain c = true → c ≠ LF.
Proof. intros H ->. discriminate H. Qed.

(** X16.  The response array of [main.c] takes nine characters.  When a
    refusal runs to nine characters or more before its new-line, the loop
    does not wait for a name: what is left of the line is read as the new
    name, and confirmed by the next [y]. *)
Theorem long_refusal_spills_into_the_name (fuel : nat)
    (tempName response finalName a b rest : list ascii) (w : world) :
  length tempName = C.MAX_NAME_LEN →
  length a = 9 → Forall (λ c, c ≠ LF) a →
  char_at a 0 ≠ "y" → char_at a 0 ≠ "Y" →
  Forall (λ c, plain c = true) b → length b ≤ 254 →
  stdin w = a ++ b ++ LF :: "y" :: LF :: rest →
  fst (C.prompt_user_for_folder_name (S (S fuel)) tempName response finalName w) = Val b
  ∧ stdin (snd (C.prompt_user_for_folder_name (S (S fuel)) tempName response finalName w))
    = rest.
Proof.
  intros Hlen Ha Hline Hy HY Hb Hlb Hin.
  assert (Hno : Ascii.eqb (tolower (char_at a 0)) "y" = false).
  { destruct (Ascii.eqb _ _) eqn:H; [|done]. apply tolower_y in H as [H|H]; done. }
  destruct (sanitize_folder_name_spec finalName tempName Hlen) as (buf & Hbuf & Hlbuf & _).
  remember (S fuel) as fuel' eqn:Hfuel.
  cbn [C.prompt_user_for_folder_name]. rewrite Hbuf.
  run. run. name_world w1 Ht Hs Hg. rewrite Hin in Hs.
  assert (Hread : fgets_stdin 10 w1
                  = (Val (Some a),
                     log (In a) (set_stdin (b ++ LF :: "y" :: LF :: rest) (cin_good w1) w1))).
  { unfold fgets_stdin. rewrite Hs. change (10 - 1) with 9. rewrite <- Ha.
    rewrite fgets_chars_full by done. destruct a; [done|reflexivity]. }
  run_with ltac:(exact Hread). change (default response (Some a)) with a.
  rewrite Hno. run.
  name_world w2 Ht2 Hs2 Hg2.
  assert (Hname : fgets_stdin C.MAX_NAME_LEN w2
                  = (Val (Some (b ++ [LF])),
                     log (In (b ++ [LF])) (set_stdin ("y" :: LF :: rest) (cin_good w2) w2))).
  { unfold fgets_stdin. rewrite Hs2. change (C.MAX_NAME_LEN - 1) with 255.
    rewrite fgets_chars_line; [|eapply Forall_impl; [exact Hb|apply plain_not_LF]|lia].
    destruct b; reflexivity. }
  run_with ltac:(exact Hname). change (default finalName (Some (b ++ [LF]))) with (b ++ [LF]).
  rewrite cut_at_strcspn. subst fuel'.
  rewrite before_any_app_stop;
    [|eapply Forall_impl; [exact Hb|apply plain_no_stop]|reflexivity].
  match goal with |- context [C.prompt_user_for_folder_name _ _ _ _ ?w0] =>
    destruct (C_prompt_yes fuel b buf a rest w0 Hlbuf eq_refl) as (buf' & Hbuf' & ->) end.
  destruct (sanitize_folder_name_spec b buf Hlbuf) as (buf'' & Hb'' & _ & Hs'').
  rewrite Hbuf' in Hb''. injection Hb'' as <-.
  cbn [fst snd stdin]. split; [|reflexivity]. f_equal.
  rewrite Hs'', c_str_fixed, clean_fixed by done.
  apply take_ge. lia.
Qed.

Lemma long_refusal_spills_into_the_name_witness :
  fst (C.prompt_user_for_folder_name 2 scratch [] (lit "my folder")
         (demo_world (lit "no thanks" ++ lit "_at_all" ++ [LF; "y"; LF])))
  = Val (lit "_at_all").
Proof.
  exact (proj1 (long_refusal_spills_into_the_name 0 scratch [] (lit "my folder")
                  (lit "no thanks") (lit "_at_all") []
                  (demo_world (lit "no thanks" ++ lit "_at_all" ++ [LF; "y"; LF]))
                  eq_refl eq_refl
                  ltac:(repeat constructor; discriminate)
                  ltac:(discriminate) ltac:(discriminate)
                  ltac:(repeat constructor)
                  ltac:(vm_compute; lia) eq_refl)).
Defined.

(** ** The length of the base path *)

Lemma fgets_file_length n content l : fgets_file n content = Some l → length l ≤ n - 1.
Proof.
  unfold fgets_file. pose proof (fgets_chars_length (n - 1) content) as Hlen.
  destruct (fgets_chars (n - 1) content) as [[|c l'] r]; cbn [fst] in *; [done|].
  by intros [= <-].
Qed.

(** X17.  Given an array of two bytes or more ([main] gives 1024),
    whichever way [main.c] comes by its base directory (from the file,
    from the default or from the answer typed), the string it returns fits
    the array, terminator included, and holds no terminator inside. *)
Theorem base_path_fits_its_array (sys : platform) (response basePath : list ascii)
    (size : nat) (w : world) :
  2 ≤ size →
  fst (C.read_or_create_config sys response size w) = Val (Some basePath) →
  length basePath ≤ size - 1 ∧ c_str basePath = basePath.
Proof.
  intros _.
  destruct (USERPROFILE w) as [home|] eqn:Henv;
    [|rewrite (C_config_no_home sys response size w Henv); discriminate].
  destruct (files w !! c_config_path home) as [content|] eqn:Hfile.
  - destruct (C_get_config_path_home sys home w Henv) as (configPath & Hpath & Hcp).
    unfold C.read_or_create_config.
    run_with ltac:(exact Hpath).
    run_with ltac:(unfold fopen_r, get; rewrite Hcp, Hfile; reflexivity).
    destruct (fgets_file size content) as [l|] eqn:Hl; [|discriminate].
    unfold ret. cbn [fst]. intros [= <-]. rewrite cut_at_strcspn.
    apply fgets_file_length in Hl. split.
    + pose proof (before_any_length [NUL; CR; LF] l). lia.
    + apply c_str_free, free_of_NUL, before_any_free.
  - destruct (fopen_w_ok sys (c_config_path home)) eqn:Hw.
    + destruct (C_config_first_run_any sys response size home w Henv Hfile Hw)
        as (p & w' & -> & _ & Hp).
      cbn [fst]. intros [= <-].
      destruct Hp as [->|(r & Hlen & ->)].
      * unfold snprintf. split; [rewrite length_take; lia|].
        apply c_str_free, Forall_take, Forall_app. split.
        -- eapply Forall_impl; [apply c_str_no_NUL|]. intros c Hc. cbn [existsb].
           rewrite orb_false_r. by destruct (Ascii.eqb_spec c NUL).
        -- by repeat constructor.
      * split; [pose proof (before_any_length [NUL; CR; LF] r); lia|].
        apply c_str_free, free_of_NUL, before_any_free.
    + destruct (C_config_unwritable sys response size home w Henv Hfile Hw)
        as (w' & _ & ->).
      discriminate.
Qed.

Lemma base_path_fits_its_array_witness :
  2 ≤ C.MAX_PATH_LEN ∧
  length (lit "D:\Work") ≤ C.MAX_PATH_LEN - 1 ∧ c_str (lit "D:\Work") = lit "D:\Work".
Proof.
  assert (Hsize : 2 ≤ C.MAX_PATH_LEN) by (unfold C.MAX_PATH_LEN; lia).
  split; [exact Hsize|].
  exact (base_path_fits_its_array demo_sys [] (lit "D:\Work") C.MAX_PATH_LEN
           (demo_world (["n"; LF] ++ lit "D:\Work" ++ [LF])) Hsize
           ltac:(vm_compute; reflexivity)).
Defined.

(** ** The path of the configuration file *)

Lemma take_app_cut {A} n (l k : list A) :
  take n l ++ take (n - length (take n l)) k = take n (l ++ k).
Proof.
  rewrite take_app. f_equal. rewrite length_take.
  destruct (decide (n ≤ length l)).
  - replace (n - n `min` length l) with 0 by lia.
    replace (n - length l) with 0 by lia. done.
  - f_equal. lia.
Qed.

(** X18.  [get_config_path] builds the path in two steps, each cut to the
    room left in the array, and the two cuts amount to one: the path is
    the full path of the file cut to [size - 1] characters.  The status of
    [_mkdir] is not looked at: on every platform the function returns 1
    with this path.  In [main.cpp] a [create_directories] that throws ends
    the resolver with the exception, and nothing has been printed or read
    by then. *)
Theorem config_path_is_cut_to_the_array (sys : platform) (home : list ascii)
    (size : nat) (w : world) :
  USERPROFILE w = Some home → 1 ≤ size →
  (∃ configPath,
     fst (C.get_config_path sys size w) = Val (Some configPath) ∧
     c_str configPath
       = take (size - 1) (c_str home ++ lit "\AppData\Local\FolderManager\config.txt"))
  ∧ (create_directories sys (c_str home ++ Cpp.CONFIG_DIR) = None →
     fst (Cpp.readOrCreateBasePath sys w) = Uncaught ∧
     trace (snd (Cpp.readOrCreateBasePath sys w)) = trace w ∧
     stdin (snd (Cpp.readOrCreateBasePath sys w)) = stdin w).
Proof.
  intros Henv Hsize. split.
  - unfold C.get_config_path.
    run_with ltac:(unfold getenv_USERPROFILE, get; rewrite Henv; reflexivity).
    run. eexists. split; [reflexivity|].
    set (dir := c_str home ++ lit "\AppData\Local\FolderManager").
    assert (Hfree : Forall (λ c, existsb (Ascii.eqb c) [NUL] = false) dir).
    { apply Forall_app. split; [|by repeat constructor].
      eapply Forall_impl; [apply c_str_no_NUL|]. intros c Hc. cbn [existsb].
      rewrite orb_false_r. by destruct (Ascii.eqb_spec c NUL). }
    unfold strncat, strlen, snprintf.
    rewrite (c_str_free (take (size - 1) dir)) by by apply Forall_take.
    change (c_str (lit "\config.txt")) with (lit "\config.txt").
    replace (size - length (take (size - 1) dir) - 1)
      with (size - 1 - length (take (size - 1) dir)) by lia.
    rewrite take_app_cut.
    rewrite c_str_free.
    + subst dir. by rewrite <- app_assoc.
    + apply Forall_take, Forall_app. split; [done|by repeat constructor].
  - intros Hthrow.
    assert (Hrun : Cpp.readOrCreateBasePath sys w = (Uncaught, w)).
    { unfold Cpp.readOrCreateBasePath, Cpp.getConfigFilePath.
      unfold mbind at 1, IO_bind, bind.
      erewrite run_bind by (by apply getUserProfile_home).
      erewrite run_bind by (unfold call; rewrite Hthrow; reflexivity).
      reflexivity. }
    by rewrite Hrun.
Qed.

Lemma config_path_is_cut_to_the_array_witness :
  ∃ configPath,
    fst (C.get_config_path no_mkdir C.MAX_PATH_LEN (demo_world []))
      = Val (Some configPath) ∧
    c_str configPath = lit "/home/u\AppData\Local\FolderManager\config.txt".
Proof.
  exact (proj1 (config_path_is_cut_to_the_array no_mkdir home_u C.MAX_PATH_LEN
                  (demo_world []) eq_refl ltac:(unfold C.MAX_PATH_LEN; lia))).
Defined.
